(** * The Packet device resource of terraform-provider-packet

    A shallow embedding of [resource_packet_device.go]: the four lifecycle
    operations of the [packet_device] resource (Create, Read, Update,
    Delete), the refresh closure they poll with, and the wait they block on.

    The Go code mutates a [*schema.ResourceData] in place and talks to the
    remote API through a [*packngo.Client].  Both are threaded explicitly
    here: every operation takes the resource data and the world (remote
    state plus the log of client calls made so far) and returns the new
    ones together with its Go result.  [log.Printf] calls are not modelled. *)

From Stdlib Require Import ZArith Lia.
From stdpp Require Import gmap strings list.

Local Open Scope string_scope.
Local Open Scope list_scope.
Local Open Scope Z_scope.

(** ** Go's [strings] and [time] packages, as far as the file uses them *)

Module strings.

(** [strings.Contains(s, substr)]: [substr] occurs somewhere in [s]. *)
Fixpoint Contains (s substr : string) : bool :=
  String.prefix substr s ||
  match s with
  | EmptyString => false
  | String _ s' => Contains s' substr
  end.

End strings.

Module time.

(** A [time.Duration] is a count of nanoseconds. *)
Definition Nanosecond : Z := 1.
Definition Millisecond : Z := 1000000 * Nanosecond.
Definition Second : Z := 1000 * Millisecond.
Definition Minute : Z := 60 * Second.

End time.

(** ** [helper/schema]: the resource data the operations read and write *)

Module schema.

(** The values the [packet_device] schema stores: [TypeString],
    [TypeBool] and a [TypeList] of strings. *)
Inductive Value :=
| VString (s : string)
| VBool (b : bool)
| VList (l : list string).

#[global] Instance Value_eq_dec : EqDecision Value.
Proof. solve_decision. Defined.

(** [rd_attrs] is what [d.Get] reads and [d.Set] writes; [rd_prior] is the
    state recorded before the operation began, the "old" side of
    [d.HasChange]. *)
Record ResourceData := {
  rd_id : string;
  rd_attrs : gmap string Value;
  rd_prior : gmap string Value;
  rd_conn : gmap string string
}.

Definition Id (d : ResourceData) : string := rd_id d.

Definition SetId (v : string) (d : ResourceData) : ResourceData :=
  {| rd_id := v; rd_attrs := rd_attrs d; rd_prior := rd_prior d;
     rd_conn := rd_conn d |}.

(** [d.Set(key, v)] ([Set] is reserved in Rocq). *)
Definition Set_ (key : string) (v : Value) (d : ResourceData) : ResourceData :=
  {| rd_id := rd_id d; rd_attrs := <[key := v]> (rd_attrs d);
     rd_prior := rd_prior d; rd_conn := rd_conn d |}.

Definition SetConnInfo (v : gmap string string) (d : ResourceData)
  : ResourceData :=
  {| rd_id := rd_id d; rd_attrs := rd_attrs d; rd_prior := rd_prior d;
     rd_conn := v |}.

(** The zero value of each type: [GetOk] reports it as "not set". *)
Definition isZero (v : Value) : bool :=
  match v with
  | VString s => bool_decide (s = "")
  | VBool b => negb b
  | VList l => bool_decide (l = [])
  end.

Definition nonZero (o : option Value) : option Value :=
  match o with
  | Some v => if isZero v then None else Some v
  | None => None
  end.

(** [d.GetOk(key)]: [Some v] stands for [(v, true)], [None] for a zero
    value with [ok = false]. *)
Definition GetOk (key : string) (d : ResourceData) : option Value :=
  nonZero (rd_attrs d !! key).

(** [d.Get(key).(string)], [d.Get(key).(bool)]: an unset key reads as the
    zero value of its type. *)
Definition GetString (key : string) (d : ResourceData) : string :=
  match rd_attrs d !! key with
  | Some (VString s) => s
  | _ => ""
  end.

Definition GetBool (key : string) (d : ResourceData) : bool :=
  match rd_attrs d !! key with
  | Some (VBool b) => b
  | _ => false
  end.

Definition GetList (key : string) (d : ResourceData) : list string :=
  match rd_attrs d !! key with
  | Some (VList l) => l
  | _ => []
  end.

(** [d.HasChange(key)]: old and new value differ, unset and zero being
    the same value. *)
Definition HasChange (key : string) (d : ResourceData) : bool :=
  bool_decide (nonZero (rd_prior d !! key) ≠ nonZero (rd_attrs d !! key)).

(** The declaration of one attribute, [schema.Schema], with the fields the
    resource sets; [Elem] is the element type of a list. *)
Inductive ValueType :=
| TypeBool
| TypeString
| TypeList.

#[global] Instance ValueType_eq_dec : EqDecision ValueType.
Proof. solve_decision. Defined.

Record Schema := {
  Type_ : ValueType;
  Optional : bool;
  Required : bool;
  Computed : bool;
  ForceNew : bool;
  Elem : option ValueType
}.

Definition typeOf (v : Value) : ValueType :=
  match v with
  | VString _ => TypeString
  | VBool _ => TypeBool
  | VList _ => TypeList
  end.

End schema.

(** ** [packngo]: devices and the client interface *)

Module packngo.

Record IPAddress := {
  Family : Z;
  Address : string;
  Public : bool
}.

(** [OS] stands for [dev.OS.Slug], [Facility] for [dev.Facility.Code] and
    [Plan] for [dev.Plan.Slug], the only parts of those the file reads.
    In packngo the three are pointers, which Read follows without a nil
    check; a device that lacks one of them is not modelled. *)
Record Device := {
  ID : string;
  OS : string;
  Hostname : string;
  Facility : string;
  Plan : string;
  State : string;
  Locked : bool;
  Network : list IPAddress
}.

Record DeviceCreateRequest := {
  req_OS : string;
  req_HostName : string;
  req_Facility : string;
  req_Plan : string;
  req_ProjectID : string;
  req_BillingCycle : string;
  req_UserData : string;
  req_Tags : list string
}.

(** The [client.Devices] service over a remote state [R].  A call returns
    the new remote state and either its value or the text of its error
    ([err.Error()], all the file ever looks at). *)
Record Client (R : Type) := {
  Create : DeviceCreateRequest → R → R * (Device + string);
  Get : string → R → R * (Device + string);
  Delete : string → R → R * option string;
  Lock : string → R → R * option string;
  Unlock : string → R → R * option string;
  PowerOn : string → R → R * option string
}.

#[global] Arguments Create {R}.
#[global] Arguments Get {R}.
#[global] Arguments Delete {R}.
#[global] Arguments Lock {R}.
#[global] Arguments Unlock {R}.
#[global] Arguments PowerOn {R}.

End packngo.

(** ** [helper/resource]: the wait primitive *)

Module resource.

(** What one call of a [StateRefreshFunc] hands back.  The Go triple
    [(result, state, err)] takes three shapes in this file:
    [(nil, "", err)] is [RefreshError], [(nil, "", nil)] is [NoValue] and
    [(dev, attr, nil)] is [Observed].  [RefreshPanic] is a failed type
    assertion inside the closure. *)
Inductive RefreshResult (Snap : Type) :=
| NoValue
| Observed (snapshot : Snap) (value : string)
| RefreshError (msg : string)
| RefreshPanic.

#[global] Arguments NoValue {Snap}.
#[global] Arguments Observed {Snap}.
#[global] Arguments RefreshError {Snap}.
#[global] Arguments RefreshPanic {Snap}.

(** The refresh closure runs over a state [S] that it may change. *)
Record StateChangeConf (S Snap : Type) := {
  Pending : list string;
  Target : string;
  Refresh : S → S * RefreshResult Snap;
  Timeout : Z;
  Delay : Z;
  MinTimeout : Z
}.

#[global] Arguments Pending {S Snap}.
#[global] Arguments Target {S Snap}.
#[global] Arguments Refresh {S Snap}.
#[global] Arguments Timeout {S Snap}.
#[global] Arguments Delay {S Snap}.
#[global] Arguments MinTimeout {S Snap}.

(** The errors of a wait: the refresh's own error passed on, an
    unexpected state, and the timeout. *)
Inductive WaitError :=
| RefreshFailed (msg : string)
| UnexpectedState (value target : string)
| TimedOut (target : string).

(** Modelled from the spec: [err.Error()] of a wait's error.  The refresh's
    error is passed on as it is; of the other two the spec says that one
    names the unexpected value and that the timeout is an error of its own,
    and the wording is this model's. *)
Definition Error (e : WaitError) : string :=
  match e with
  | RefreshFailed msg => msg
  | UnexpectedState value target =>
      "unexpected state '" +:+ value +:+ "', wanted target '" +:+ target
      +:+ "'"
  | TimedOut target =>
      "timeout while waiting for state to become '" +:+ target +:+ "'"
  end.

Inductive WaitResult (Snap : Type) :=
| WaitOk (snapshot : Snap)
| WaitErr (e : WaitError)
| WaitPanic.

#[global] Arguments WaitOk {Snap}.
#[global] Arguments WaitErr {Snap}.
#[global] Arguments WaitPanic {Snap}.

(** A finished wait: the state the refresh calls left behind, the Go
    result, and the instants (nanoseconds since the wait began) at which
    the refresh function was called, oldest first. *)
Record WaitRun (S Snap : Type) := {
  final : S;
  result : WaitResult Snap;
  polls : list Z
}.

#[global] Arguments final {S Snap}.
#[global] Arguments result {S Snap}.
#[global] Arguments polls {S Snap}.

Section WaitForState.

Context {S Snap : Type}.

(** [backoff] is the adaptive part of the interval between two polls, by
    number of polls made so far, which the spec leaves open. *)
Variable backoff : nat → Z.
Variable conf : StateChangeConf S Snap.

(** Modelled from the spec: the interval slept between two polls of
    [WaitForState], adaptive and never below the minimum interval. *)
Definition interval (tries : nat) : Z :=
  Z.max (MinTimeout conf) (backoff tries).

(** Modelled from the spec: what [WaitForState] does with one refresh
    result, steps 1 to 5 of the Attribute Poller: [None] to carry on
    polling, [Some] to stop with that result. *)
Definition verdict (r : RefreshResult Snap) : option (WaitResult Snap) :=
  match r with
  | RefreshError msg => Some (WaitErr (RefreshFailed msg))
  | RefreshPanic => Some WaitPanic
  | NoValue => None
  | Observed snapshot value =>
      if bool_decide (value = Target conf) then Some (WaitOk snapshot)
      else if bool_decide (value ∈ Pending conf) then None
      else Some (WaitErr (UnexpectedState value (Target conf)))
  end.

Definition polled (now : Z) (run : WaitRun S Snap) : WaitRun S Snap :=
  {| final := final run; result := result run;
     polls := now :: polls run |}.

(** Modelled from the spec: the polling loop of [WaitForState] at instant
    [now], after [tries] polls: the timeout error once [now] is past the
    timeout, otherwise one refresh call and, unless its result stops the
    wait, the next round one interval later.  [fuel] bounds the number of
    rounds. *)
Fixpoint pollLoop (fuel tries : nat) (now : Z) (s : S)
  : option (WaitRun S Snap) :=
  match fuel with
  | O => None
  | Datatypes.S fuel' =>
      if Timeout conf <? now then
        Some {| final := s; result := WaitErr (TimedOut (Target conf));
                polls := [] |}
      else
        let '(s', r) := Refresh conf s in
        match verdict r with
        | Some res => Some {| final := s'; result := res; polls := [now] |}
        | None =>
            polled now <$>
              pollLoop fuel' (Datatypes.S tries) (now + interval tries) s'
        end
  end.

(** Polls are at least [MinTimeout] apart, so from instant [now] on no
    more than [budget now] of them fit before [Timeout]; one more round
    sees the timeout. *)
Definition budget (now : Z) : Z :=
  (Timeout conf - now) / MinTimeout conf + 1.

Definition maxPolls : nat := Z.to_nat (budget (Delay conf)).

(** Modelled from the spec: [StateChangeConf.WaitForState] of Terraform's
    [helper/resource] package, which this repository imports and does
    not contain.  Following the Attribute Poller contract: wait the
    initial delay, then on each tick call the refresh function; a
    refresh error aborts with that error; no observed value and a
    pending value keep waiting; the target value succeeds with the
    snapshot; any other value aborts naming it; ticks are at least the
    minimum interval apart; once the timeout is exceeded the wait ends
    with the timeout error.  [None] only if the loop does not end, which
    a positive minimum interval excludes. *)
Definition WaitForState (s : S) : option (WaitRun S Snap) :=
  pollLoop (Datatypes.S maxPolls) 0 (Delay conf) s.

(** *** The run of a wait, tick by tick *)

(** The state after [n] refresh calls, and what call number [n]
    (counting from 0) returns. *)
Fixpoint stateAfter (n : nat) (s : S) : S :=
  match n with
  | O => s
  | Datatypes.S n' => stateAfter n' (Refresh conf s).1
  end.

Definition resultAt (n : nat) (s : S) : RefreshResult Snap :=
  (Refresh conf (stateAfter n s)).2.


(** The instant of the poll [n] ticks after the one made at [now] as
    poll number [tries], if the wait gets that far; poll number [n] of
    the whole wait. *)
Fixpoint instantFrom (tries : nat) (now : Z) (n : nat) : Z :=
  match n with
  | O => now
  | Datatypes.S n' =>
      instantFrom (Datatypes.S tries) (now + interval tries) n'
  end.

Definition instant (n : nat) : Z := instantFrom 0 (Delay conf) n.

End WaitForState.


End resource.

Import schema packngo resource.

(** ** The world: remote state and the log of client calls *)

Inductive Call :=
| CallCreate (opts : DeviceCreateRequest)
| CallGet (id : string)
| CallDelete (id : string)
| CallLock (id : string)
| CallUnlock (id : string)
| CallPowerOn (id : string).

(** One client call and the error it returned, if any. *)
Record Event := {
  ev_call : Call;
  ev_err : option string
}.

Record World (R : Type) := {
  remote : R;
  trace : list Event
}.

Arguments remote {R}.
Arguments trace {R}.

(** What a Go function returning [error] did: returned ([None] is [nil],
    [Some msg] an error with that text) or panicked. *)
Inductive outcome :=
| Returned (err : option string)
| Panicked.

Definition isGet (e : Event) : bool :=
  match ev_call e with CallGet _ => true | _ => false end.

Definition isLock (e : Event) : bool :=
  match ev_call e with CallLock _ => true | _ => false end.

Definition isUnlock (e : Event) : bool :=
  match ev_call e with CallUnlock _ => true | _ => false end.

(** The code's test for "the device no longer exists". *)
Definition notFound (err : string) : bool :=
  strings.Contains err "404 Not Found".

(** A [Get] that came back with a not-found error. *)
Definition isGetNotFound (e : Event) : bool :=
  match ev_call e, ev_err e with
  | CallGet _, Some err => notFound err
  | _, _ => false
  end.

Definition count (p : Event → bool) (l : list Event) : nat :=
  length (filter (λ e, p e = true) l).

Section Device.

Context {R : Type}.
Variable client : Client R.
Variable backoff : nat → Z.

(** *** Client calls, logged *)

Definition logged (c : Call) (e : option string) (r : R) (w : World R)
  : World R :=
  {| remote := r; trace := trace w ++ [{| ev_call := c; ev_err := e |}] |}.

Definition errOf {A : Type} (res : A + string) : option string :=
  match res with inl _ => None | inr err => Some err end.

Definition DevicesCreate (opts : DeviceCreateRequest) (w : World R)
  : World R * (Device + string) :=
  let '(r, res) := Create client opts (remote w) in
  (logged (CallCreate opts) (errOf res) r w, res).

Definition DevicesGet (id : string) (w : World R)
  : World R * (Device + string) :=
  let '(r, res) := Get client id (remote w) in
  (logged (CallGet id) (errOf res) r w, res).

Definition DevicesDelete (id : string) (w : World R)
  : World R * option string :=
  let '(r, err) := Delete client id (remote w) in
  (logged (CallDelete id) err r w, err).

Definition DevicesLock (id : string) (w : World R)
  : World R * option string :=
  let '(r, err) := Lock client id (remote w) in
  (logged (CallLock id) err r w, err).

Definition DevicesUnlock (id : string) (w : World R)
  : World R * option string :=
  let '(r, err) := Unlock client id (remote w) in
  (logged (CallUnlock id) err r w, err).

Definition DevicesPowerOn (id : string) (w : World R)
  : World R * option string :=
  let '(r, err) := PowerOn client id (remote w) in
  (logged (CallPowerOn id) err r w, err).

(** *** Read *)

(** One round of the loop over [dev.Network]; the accumulator is the
    local [publicIPv4] and the resource data. *)
Definition scanAddr (acc : string * ResourceData) (addr : IPAddress)
  : string * ResourceData :=
  let '(publicIPv4, d) := acc in
  if Family addr =? 4 then
    if Public addr then
      (Address addr, Set_ "ipv4_address" (VString (Address addr)) d)
    else
      (publicIPv4, Set_ "ipv4_address_private" (VString (Address addr)) d)
  else if Family addr =? 6 then
    if Public addr then
      (publicIPv4, Set_ "ipv6_address" (VString (Address addr)) d)
    else (publicIPv4, d)
  else (publicIPv4, d).

Definition scanNetwork (net : list IPAddress) (acc : string * ResourceData)
  : string * ResourceData :=
  fold_left scanAddr net acc.

(** The attribute one address is recorded under, if any, and the
    addresses of a list recorded under [key], in list order. *)
Definition classOf (addr : IPAddress) : option string :=
  if Family addr =? 4 then
    Some (if Public addr then "ipv4_address" else "ipv4_address_private")
  else if (Family addr =? 6) && Public addr then Some "ipv6_address"
  else None.

Definition ofClass (key : string) (net : list IPAddress) : list string :=
  Address <$> filter (λ addr, classOf addr = Some key) net.

(** The part of Read after a successful [Get]. *)
Definition populate (dev : Device) (d : ResourceData) : ResourceData :=
  let d := Set_ "os" (VString (OS dev)) d in
  let d := Set_ "hostname" (VString (Hostname dev)) d in
  let d := Set_ "facility" (VString (Facility dev)) d in
  let d := Set_ "plan" (VString (Plan dev)) d in
  let d := Set_ "state" (VString (State dev)) d in
  let d := Set_ "locked" (VBool (Locked dev)) d in
  let '(publicIPv4, d) := scanNetwork (Network dev) ("", d) in
  SetConnInfo (<["type" := "ssh"]> (<["host" := publicIPv4]> ∅)) d.

Definition resourcePacketDeviceRead (d : ResourceData) (w : World R)
  : ResourceData * World R * option string :=
  let '(w, res) := DevicesGet (Id d) w in
  match res with
  | inr err =>
      if strings.Contains err "404 Not Found" then (SetId "" d, w, None)
      else (d, w, Some ("Error retrieving device: " +:+ err))
  | inl dev => (populate dev d, w, None)
  end.

(** *** Update *)

Definition resourcePacketDeviceUpdate (d : ResourceData) (w : World R)
  : ResourceData * World R * option string :=
  if HasChange "locked" d then
    let '(action, (w, err)) :=
      if GetBool "locked" d then ("locking", DevicesLock (Id d) w)
      else ("unlocking", DevicesUnlock (Id d) w) in
    match err with
    | Some err =>
        (d, w, Some ("Error " +:+ action +:+ " device (" +:+ Id d +:+ "): "
                     +:+ err))
    | None => resourcePacketDeviceRead d w
    end
  else resourcePacketDeviceRead d w.

(** *** Waiting for an attribute *)

Definition newDeviceStateRefreshFunc (attribute : string)
  (s : ResourceData * World R)
  : ResourceData * World R * RefreshResult Device :=
  let '(d, w) := s in
  let '(d, w, err) := resourcePacketDeviceRead d w in
  match err with
  | Some err => (d, w, RefreshError err)
  | None =>
      match GetOk attribute d with
      | Some attr =>
          let '(w, res) := DevicesGet (Id d) w in
          match res with
          | inr err =>
              (d, w, RefreshError ("Error retrieving device: " +:+ err))
          | inl dev =>
              match attr with
              | VString attr => (d, w, Observed dev attr)
              | _ => (d, w, RefreshPanic)
              end
          end
      | None => (d, w, NoValue)
      end
  end.

Definition deviceStateConf (target : string) (pending : list string)
  (attribute : string) : StateChangeConf (ResourceData * World R) Device :=
  {| Pending := pending;
     Target := target;
     Refresh := newDeviceStateRefreshFunc attribute;
     Timeout := 60 * time.Minute;
     Delay := 10 * time.Second;
     MinTimeout := 3 * time.Second |}.

(** On the next tick the [Get] of the embedded Read reports not-found. *)
Definition readNotFound (s : ResourceData * World R) : bool :=
  match (Get client (Id s.1) (remote s.2)).2 with
  | inr err => notFound err
  | inl _ => false
  end.

Definition WaitForDeviceAttribute (d : ResourceData) (target : string)
  (pending : list string) (attribute : string) (w : World R)
  : option (WaitRun (ResourceData * World R) Device) :=
  WaitForState backoff (deviceStateConf target pending attribute) (d, w).

(** *** Create *)

(** The creation options built from the configuration.  The schema types
    [user_data] as a string. *)
Definition createOptions (d : ResourceData) : DeviceCreateRequest :=
  let tags := length (GetList "tags" d) in
  {| req_OS := GetString "os" d;
     req_HostName := GetString "hostname" d;
     req_Facility := GetString "facility" d;
     req_Plan := GetString "plan" d;
     req_ProjectID := GetString "project_id" d;
     req_BillingCycle := "hourly";
     req_UserData :=
       match GetOk "user_data" d with
       | Some (VString attr) => attr
       | _ => ""
       end;
     req_Tags :=
       if (0 <? tags)%nat then
         map (λ i, nth i (GetList "tags" d) "") (seq 0 tags)
       else [] |}.

Definition resourcePacketDeviceCreate (d : ResourceData) (w : World R)
  : option (ResourceData * World R * outcome) :=
  let opts := createOptions d in
  let '(w, res) := DevicesCreate opts w in
  match res with
  | inr err => Some (d, w, Returned (Some ("Error creating device: " +:+ err)))
  | inl dev =>
      let d := SetId (ID dev) d in
      run ← WaitForDeviceAttribute d "active" ["queued"; "provisioning"]
              "state" w;
      let '(d, w) := final run in
      match result run with
      | WaitPanic => Some (d, w, Panicked)
      | WaitErr err =>
          Some (d, w, Returned (Some (
            "Error waiting for device (" +:+ Id d +:+ ") to become ready: "
            +:+ Error err)))
      | WaitOk _ =>
          let '(d, w, err) := resourcePacketDeviceRead d w in
          Some (d, w, Returned err)
      end
  end.

(** *** Delete *)

Definition resourcePacketDeviceDelete (d : ResourceData) (w : World R)
  : option (ResourceData * World R * outcome) :=
  run ← WaitForDeviceAttribute d "active" ["queued"; "provisioning"]
          "state" w;
  let '(d, w) := final run in
  match result run with
  | WaitPanic => Some (d, w, Panicked)
  | WaitErr err =>
      Some (d, w, Returned (Some (
        "Error waiting for device to be active for destroy (" +:+ Id d
        +:+ "): " +:+ Error err)))
  | WaitOk _ =>
      let '(w, err) := DevicesDelete (Id d) w in
      match err with
      | Some err =>
          if strings.Contains err "404 Not Found" then
            Some (d, w, Returned None)
          else Some (d, w, Returned (Some ("Error deleting device: " +:+ err)))
      | None => Some (d, w, Returned None)
      end
  end.

(** *** Power on *)

Definition powerOnAndWait (d : ResourceData) (w : World R)
  : option (ResourceData * World R * outcome) :=
  let '(w, err) := DevicesPowerOn (Id d) w in
  match err with
  | Some err => Some (d, w, Returned (Some err))
  | None =>
      run ← WaitForDeviceAttribute d "active" ["off"] "state" w;
      let '(d, w) := final run in
      match result run with
      | WaitPanic => Some (d, w, Panicked)
      | WaitErr err => Some (d, w, Returned (Some (Error err)))
      | WaitOk _ => Some (d, w, Returned None)
      end
  end.

End Device.

(** ** The declared attributes *)

Definition required (t : ValueType) (forceNew : bool) : Schema :=
  {| Type_ := t; Optional := false; Required := true; Computed := false;
     ForceNew := forceNew; Elem := None |}.

Definition computed (t : ValueType) : Schema :=
  {| Type_ := t; Optional := false; Required := false; Computed := true;
     ForceNew := false; Elem := None |}.

Definition optional (t : ValueType) (elem : option ValueType) : Schema :=
  {| Type_ := t; Optional := true; Required := false; Computed := false;
     ForceNew := false; Elem := elem |}.

(** The [Schema] field of [resourcePacketDevice()]; its [Create], [Read],
    [Update] and [Delete] fields are the four functions above. *)
Definition resourcePacketDevice : gmap string Schema :=
  list_to_map [
    ("os", required TypeString true);
    ("hostname", required TypeString false);
    ("facility", required TypeString true);
    ("plan", required TypeString false);
    ("project_id", required TypeString false);
    ("state", computed TypeString);
    ("locked", computed TypeBool);
    ("ipv6_address", computed TypeString);
    ("ipv4_address", computed TypeString);
    ("ipv4_address_private", computed TypeString);
    ("tags", optional TypeList (Some TypeString));
    ("user_data", optional TypeString None)
  ].

(** A stored value fits the declaration of its key; resource data is well
    typed when every stored value does, which is what [d.Set] checks before
    it stores a value. *)
Definition declared (key : string) (v : Value) : Prop :=
  Type_ <$> resourcePacketDevice !! key = Some (typeOf v).

Definition wellTyped (d : ResourceData) : Prop :=
  map_Forall declared (rd_attrs d).

(** ** A scripted remote, for running the operations on concrete inputs *)

(** The remote answers [Get] calls from a list of replies, one per call, and
    with a not-found error once the list is used up; the other calls have one
    fixed reply each. *)
Record Script := {
  gets : list (Device + string);
  created : Device + string;
  deleted : option string;
  locked : option string;
  unlocked : option string;
  powered : option string
}.

Definition gone : string := "GET /devices: 404 Not Found".

Definition nextGet (s : Script) : Script * (Device + string) :=
  match gets s with
  | [] => (s, inr gone)
  | reply :: rest =>
      ({| gets := rest; created := created s; deleted := deleted s;
          locked := locked s; unlocked := unlocked s; powered := powered s |},
       reply)
  end.

Definition scriptedClient : Client Script :=
  {| Create := λ _ s, (s, created s);
     Get := λ _ s, nextGet s;
     Delete := λ _ s, (s, deleted s);
     Lock := λ _ s, (s, locked s);
     Unlock := λ _ s, (s, unlocked s);
     PowerOn := λ _ s, (s, powered s) |}.

Definition script (replies : list (Device + string)) : Script :=
  {| gets := replies; created := inr "unavailable"; deleted := None;
     locked := None; unlocked := None; powered := None |}.

Definition start {R : Type} (r : R) : World R := {| remote := r; trace := [] |}.

Definition noData (id : string) : ResourceData :=
  {| rd_id := id; rd_attrs := ∅; rd_prior := ∅; rd_conn := ∅ |}.

Definition address (family : Z) (addr : string) (public : bool) : IPAddress :=
  {| Family := family; Address := addr; Public := public |}.

Definition device (state : string) (net : list IPAddress) : Device :=
  {| ID := "dev-1"; OS := "ubuntu_14_04"; Hostname := "web"; Facility := "ewr1";
     Plan := "baremetal_1"; State := state; Locked := false; Network := net |}.

(** No adaptive back-off: every interval is the minimum one. *)
Definition steady : nat → Z := λ _, 0.



(** A device tracked since an earlier Read that saw it in [state]. *)
Definition tracked (id state : string) : ResourceData :=
  {| rd_id := id; rd_attrs := <["state" := VString state]> ∅;
     rd_prior := <["state" := VString state]> ∅; rd_conn := ∅ |}.

(** The device has been destroyed behind the provider's back: every [Get]
    and the [Delete] answer not-found. *)
Definition vanished : Script :=
  {| gets := []; created := inr "unavailable"; deleted := Some gone;
     locked := None; unlocked := None; powered := None |}.

(** Create succeeds and the new device is seen queued on the first tick
    (two [Get]s); after that it is gone. *)
Definition shortLived : Script :=
  {| gets := [inl (device "queued" []); inl (device "queued" [])];
     created := inl (device "queued" []); deleted := None;
     locked := None; unlocked := None; powered := None |}.

(** Create succeeds with [dev]; the [Get]s that follow are answered from
    [replies]. *)
Definition afterCreate (dev : Device) (replies : list (Device + string))
  : Script :=
  {| gets := replies; created := inl dev; deleted := None;
     locked := None; unlocked := None; powered := None |}.

Definition lockedDevice : Device :=
  {| ID := "dev-1"; OS := "ubuntu_14_04"; Hostname := "web"; Facility := "ewr1";
     Plan := "baremetal_1"; State := "active"; Locked := true; Network := [] |}.

(** * Properties *)

(** ** The wait primitive *)

Section WaitFacts.

Context {S Snap : Type}.
Variable backoff : nat → Z.
Variable conf : StateChangeConf S Snap.

Lemma interval_min tries : MinTimeout conf ≤ interval backoff conf tries.
Proof. unfold interval. lia. Qed.

Lemma pollLoop_timeout fuel tries now s :
  Timeout conf < now →
  pollLoop backoff conf (Datatypes.S fuel) tries now s =
    Some {| final := s; result := WaitErr (TimedOut (Target conf));
            polls := [] |}.
Proof.
  intros Hlate. simpl.
  destruct (Z.ltb_spec (Timeout conf) now); [done | lia].
Qed.

Lemma pollLoop_stop fuel tries now s res :
  now ≤ Timeout conf →
  verdict conf (Refresh conf s).2 = Some res →
  pollLoop backoff conf (Datatypes.S fuel) tries now s =
    Some {| final := (Refresh conf s).1; result := res; polls := [now] |}.
Proof.
  intros Hnow Hres. simpl.
  destruct (Z.ltb_spec (Timeout conf) now); [lia |].
  destruct (Refresh conf s) as [s' r]; simpl in *. by rewrite Hres.
Qed.

Lemma pollLoop_continue fuel tries now s :
  now ≤ Timeout conf →
  verdict conf (Refresh conf s).2 = None →
  pollLoop backoff conf (Datatypes.S fuel) tries now s =
    polled now <$>
      pollLoop backoff conf fuel (Datatypes.S tries)
        (now + interval backoff conf tries) (Refresh conf s).1.
Proof.
  intros Hnow Hres. simpl.
  destruct (Z.ltb_spec (Timeout conf) now); [lia |].
  destruct (Refresh conf s) as [s' r]; simpl in *. by rewrite Hres.
Qed.

Lemma budget_step now next :
  0 < MinTimeout conf → now ≤ Timeout conf →
  now + MinTimeout conf ≤ next →
  1 ≤ budget conf now ∧ budget conf next ≤ budget conf now - 1.
Proof.
  intros Hmin Hnow Hnext. unfold budget. split.
  - assert (0 ≤ (Timeout conf - now) / MinTimeout conf)
      by (apply Z.div_pos; lia). lia.
  - assert ((Timeout conf - next) / MinTimeout conf
            ≤ (Timeout conf - now + (-1) * MinTimeout conf) / MinTimeout conf)
      by (apply Z.div_le_mono; lia).
    rewrite Z.div_add in * by lia. lia.
Qed.

(** With a positive minimum interval the loop ends. *)
Lemma pollLoop_total fuel : ∀ tries now s,
  0 < MinTimeout conf →
  Z.max 0 (budget conf now) < Z.of_nat fuel →
  is_Some (pollLoop backoff conf fuel tries now s).
Proof.
  induction fuel as [|fuel IH]; intros tries now s Hmin Hfuel; [lia|].
  destruct (Z.le_gt_cases now (Timeout conf)) as [Hnow|Hnow].
  - destruct (verdict conf (Refresh conf s).2) as [res|] eqn:Hres.
    + erewrite pollLoop_stop; eauto.
    + rewrite pollLoop_continue by done.
      apply fmap_is_Some, IH; [done|].
      pose proof (interval_min tries).
      destruct (budget_step now (now + interval backoff conf tries)); lia.
  - rewrite pollLoop_timeout; eauto.
Qed.

Lemma WaitForState_total s :
  0 < MinTimeout conf → is_Some (WaitForState backoff conf s).
Proof.
  intros Hmin. apply pollLoop_total; [done|].
  unfold maxPolls, budget. lia.
Qed.


(** No more polls than fit into the budget. *)
Lemma pollLoop_polls_length fuel : ∀ tries now s run,
  0 < MinTimeout conf →
  pollLoop backoff conf fuel tries now s = Some run →
  Z.of_nat (length (polls run)) ≤ Z.max 0 (budget conf now).
Proof.
  induction fuel as [|fuel IH]; intros tries now s run Hmin Hrun; [done|].
  destruct (Z.le_gt_cases now (Timeout conf)) as [Hnow|Hnow].
  - pose proof (interval_min tries).
    destruct (budget_step now (now + interval backoff conf tries))
      as [Hone Hnext]; [lia..|].
    destruct (verdict conf (Refresh conf s).2) as [res|] eqn:Hres.
    + erewrite pollLoop_stop in Hrun by done. simplify_eq. simpl. lia.
    + rewrite pollLoop_continue in Hrun by done.
      apply fmap_Some in Hrun as (run' & Hrun' & ->).
      apply IH in Hrun'; [|done]. simpl. lia.
  - rewrite pollLoop_timeout in Hrun by done. simplify_eq. simpl. lia.
Qed.



Lemma instantFrom_lower n : ∀ tries now,
  now + Z.of_nat n * MinTimeout conf ≤ instantFrom backoff conf tries now n.
Proof.
  induction n as [|n IH]; intros tries now; simpl; [lia|].
  pose proof (IH (Datatypes.S tries) (now + interval backoff conf tries)).
  pose proof (interval_min tries). lia.
Qed.

(** A tick that observes a value outside target and pending set ends the
    loop there. *)
Lemma pollLoop_unexpected n : ∀ fuel tries now s snapshot value,
  0 ≤ MinTimeout conf →
  (n < fuel)%nat →
  (∀ k, (k < n)%nat → verdict conf (resultAt conf k s) = None) →
  resultAt conf n s = Observed snapshot value →
  value ≠ Target conf → value ∉ Pending conf →
  instantFrom backoff conf tries now n ≤ Timeout conf →
  ∃ run,
    pollLoop backoff conf fuel tries now s = Some run ∧
    result run = WaitErr (UnexpectedState value (Target conf)) ∧
    final run = stateAfter conf (Datatypes.S n) s ∧
    length (polls run) = Datatypes.S n.
Proof.
  induction n as [|n IH];
    intros fuel tries now s snapshot value Hmin Hfuel Hbefore Hat Hne Hnin Hnow;
    (destruct fuel as [|fuel]; [lia|]).
  - unfold resultAt in Hat; simpl in *.
    eexists. split.
    + apply pollLoop_stop; [done|]. rewrite Hat. simpl.
      rewrite !bool_decide_eq_false_2; done.
    + done.
  - assert (now ≤ Timeout conf).
    { pose proof (instantFrom_lower (Datatypes.S n) tries now). nia. }
    pose proof (Hbefore 0%nat ltac:(lia)) as Hres.
    unfold resultAt in Hres; simpl in Hres.
    rewrite pollLoop_continue by done.
    destruct (IH fuel (Datatypes.S tries) (now + interval backoff conf tries)
                (Refresh conf s).1 snapshot value)
      as (run & -> & Hrun & Hfinal & Hlen); try done; [lia| |].
    { intros k Hk. apply (Hbefore (Datatypes.S k)). lia. }
    exists (polled now run). simpl. by rewrite Hlen.
Qed.

(** A wait leaves the state that one refresh call per poll produces. *)
Lemma pollLoop_final fuel : ∀ tries now s run,
  pollLoop backoff conf fuel tries now s = Some run →
  final run = stateAfter conf (length (polls run)) s.
Proof.
  induction fuel as [|fuel IH]; intros tries now s run Hrun; [done|].
  destruct (Z.le_gt_cases now (Timeout conf)) as [Hnow|Hnow].
  - destruct (verdict conf (Refresh conf s).2) as [res|] eqn:Hres.
    + erewrite pollLoop_stop in Hrun by done. by simplify_eq.
    + rewrite pollLoop_continue in Hrun by done.
      apply fmap_Some in Hrun as (run' & Hrun' & ->).
      apply IH in Hrun'. simpl. by rewrite Hrun'.
  - rewrite pollLoop_timeout in Hrun by done. by simplify_eq.
Qed.

End WaitFacts.

(** ** Read *)

Section ReadFacts.

Context {R : Type}.
Variable client : Client R.

Lemma Read_found d w r dev :
  Get client (Id d) (remote w) = (r, inl dev) →
  resourcePacketDeviceRead client d w =
    (populate dev d, logged (CallGet (Id d)) None r w, None).
Proof.
  intros Hget. unfold resourcePacketDeviceRead, DevicesGet.
  by rewrite Hget.
Qed.

Lemma Read_not_found d w r err :
  Get client (Id d) (remote w) = (r, inr err) →
  notFound err = true →
  resourcePacketDeviceRead client d w =
    (SetId "" d, logged (CallGet (Id d)) (Some err) r w, None).
Proof.
  intros Hget Hnf. unfold resourcePacketDeviceRead, DevicesGet.
  rewrite Hget. simpl. unfold notFound in Hnf. by rewrite Hnf.
Qed.

Lemma Read_failed d w r err :
  Get client (Id d) (remote w) = (r, inr err) →
  notFound err = false →
  resourcePacketDeviceRead client d w =
    (d, logged (CallGet (Id d)) (Some err) r w,
     Some ("Error retrieving device: " +:+ err)).
Proof.
  intros Hget Hnf. unfold resourcePacketDeviceRead, DevicesGet.
  rewrite Hget. simpl. unfold notFound in Hnf. by rewrite Hnf.
Qed.

(** *** The scan of the address list *)

Lemma scanAddr_attrs p d addr key :
  rd_attrs (scanAddr (p, d) addr).2 !! key =
    if decide (classOf addr = Some key) then Some (VString (Address addr))
    else rd_attrs d !! key.
Proof.
  unfold scanAddr, classOf.
  destruct (Family addr =? 4), (Public addr), (Family addr =? 6); simpl.
  all: try done.
  all: case_decide; simplify_eq;
    rewrite ?lookup_insert_eq; try done;
    rewrite lookup_insert_ne; congruence.
Qed.

Lemma scanAddr_rest p d addr :
  let d' := (scanAddr (p, d) addr).2 in
  rd_id d' = rd_id d ∧ rd_prior d' = rd_prior d ∧ rd_conn d' = rd_conn d.
Proof.
  unfold scanAddr.
  by destruct (Family addr =? 4), (Public addr), (Family addr =? 6).
Qed.

(** After the scan an attribute holds the last address of its class, or
    what it held before if the list has none. *)
Lemma scanNetwork_attrs net : ∀ p d key,
  rd_attrs (scanNetwork net (p, d)).2 !! key =
    match last (ofClass key net) with
    | Some addr => Some (VString addr)
    | None => rd_attrs d !! key
    end.
Proof.
  induction net as [|addr net IH]; intros p d key; [done|].
  unfold scanNetwork in *. cbn [fold_left].
  destruct (scanAddr (p, d) addr) as [p' d'] eqn:Hstep.
  rewrite IH. unfold ofClass. rewrite filter_cons.
  pose proof (scanAddr_attrs p d addr key) as Hattr.
  rewrite Hstep in Hattr; simpl in Hattr.
  rewrite Hattr. case_decide; [|done].
  rewrite fmap_cons, last_cons.
  by destruct (last (Address <$> filter _ net)).
Qed.

Lemma scanNetwork_rest net : ∀ p d,
  let d' := (scanNetwork net (p, d)).2 in
  rd_id d' = rd_id d ∧ rd_prior d' = rd_prior d ∧ rd_conn d' = rd_conn d.
Proof.
  induction net as [|addr net IH]; intros p d; [done|].
  unfold scanNetwork in *. cbn [fold_left].
  pose proof (scanAddr_rest p d addr) as Hstep.
  destruct (scanAddr (p, d) addr) as [p' d'].
  specialize (IH p' d'). simpl in *.
  by destruct Hstep as (<- & <- & <-).
Qed.

Lemma populate_attrs dev d key :
  rd_attrs (populate dev d) !! key =
    match last (ofClass key (Network dev)) with
    | Some addr => Some (VString addr)
    | None =>
        <["locked" := VBool (Locked dev)]>
          (<["state" := VString (State dev)]>
            (<["plan" := VString (Plan dev)]>
              (<["facility" := VString (Facility dev)]>
                (<["hostname" := VString (Hostname dev)]>
                  (<["os" := VString (OS dev)]> (rd_attrs d)))))) !! key
    end.
Proof.
  unfold populate.
  match goal with |- context [scanNetwork ?net (?p, ?d0)] =>
    pose proof (scanNetwork_attrs net p d0 key) as Hscan;
    destruct (scanNetwork net (p, d0)) as [p' d'] end.
  simpl in *. by rewrite Hscan.
Qed.

Lemma populate_id dev d : Id (populate dev d) = Id d.
Proof.
  unfold populate.
  match goal with |- context [scanNetwork ?net (?p, ?d0)] =>
    pose proof (scanNetwork_rest net p d0) as Hscan;
    destruct (scanNetwork net (p, d0)) as [p' d'] end.
  simpl in *. by destruct Hscan as (-> & _).
Qed.

(** No address is recorded under a key other than the three. *)
Lemma ofClass_other key net :
  key ∉ ["ipv4_address"; "ipv4_address_private"; "ipv6_address"] →
  ofClass key net = [].
Proof.
  intros Hkey. unfold ofClass.
  induction net as [|addr net IH]; [done|].
  rewrite filter_cons. case_decide as Hclass; [|done].
  exfalso. apply Hkey. unfold classOf in Hclass.
  destruct (Family addr =? 4), (Public addr), (Family addr =? 6);
    simplify_eq/=; set_solver.
Qed.

Lemma populate_state dev d :
  rd_attrs (populate dev d) !! "state" = Some (VString (State dev)).
Proof.
  rewrite populate_attrs, ofClass_other.
  - simpl. by simplify_map_eq.
  - rewrite !not_elem_of_cons. repeat split; try done. apply not_elem_of_nil.
Qed.

(** C1 (as amended): when Get returns the device, each of [ipv4_address],
    [ipv4_address_private] and [ipv6_address] ends up holding the address
    of the last entry of its class in the device's network list: a later
    entry of the same class overwrites an earlier one.  With no entry of
    the class the attribute keeps the value it had. *)
Theorem C1_last_address_of_class_is_recorded d w r dev key :
  Get client (Id d) (remote w) = (r, inl dev) →
  key ∈ ["ipv4_address"; "ipv4_address_private"; "ipv6_address"] →
  rd_attrs (resourcePacketDeviceRead client d w).1.1 !! key =
    match last (ofClass key (Network dev)) with
    | Some addr => Some (VString addr)
    | None => rd_attrs d !! key
    end.
Proof.
  intros Hget Hkey. erewrite Read_found by done. simpl.
  rewrite populate_attrs.
  destruct (last (ofClass key (Network dev))); [done|].
  set_unfold. destruct Hkey as [->|[->|[->|[]]]]; by simplify_map_eq.
Qed.

(** C4: when Get fails with a not-found error, Read empties the ID,
    returns no error and leaves attributes and connection info as they
    were; when Get fails with any other error, Read returns that error
    wrapped and leaves the resource data alone. *)
Theorem C4_read_on_get_error d w r err :
  Get client (Id d) (remote w) = (r, inr err) →
  let '(d', w', res) := resourcePacketDeviceRead client d w in
  w' = logged (CallGet (Id d)) (Some err) r w ∧
  if notFound err then
    res = None ∧ Id d' = "" ∧ rd_attrs d' = rd_attrs d ∧
    rd_conn d' = rd_conn d
  else
    res = Some ("Error retrieving device: " +:+ err) ∧ d' = d.
Proof.
  intros Hget. destruct (notFound err) eqn:Hnf.
  - by erewrite Read_not_found.
  - by erewrite Read_failed.
Qed.

End ReadFacts.

(** ** Counting calls *)

Lemma count_app p l1 l2 : count p (l1 ++ l2) = (count p l1 + count p l2)%nat.
Proof. unfold count. by rewrite filter_app, length_app. Qed.

Lemma count_one p e : count p [e] = if p e then 1%nat else 0%nat.
Proof.
  unfold count. rewrite filter_cons, filter_nil.
  case_decide as Hp; [by rewrite Hp|]. by destruct (p e).
Qed.

(** ** Update *)

Section UpdateFacts.

Context {R : Type}.
Variable client : Client R.

(** Read makes one call, a [Get] for the tracked ID, and either keeps the
    ID or, that [Get] having reported not-found, empties it. *)
Lemma Read_effect d w :
  let '(d', w', _) := resourcePacketDeviceRead client d w in
  ∃ e, trace w' = trace w ++ [e] ∧ ev_call e = CallGet (Id d) ∧
       (Id d' = Id d ∨ Id d' = "" ∧ isGetNotFound e = true).
Proof.
  destruct (Get client (Id d) (remote w)) as [r [dev|err]] eqn:Hget.
  - erewrite Read_found by done. eexists. repeat split.
    left. apply populate_id.
  - destruct (notFound err) eqn:Hnf.
    + erewrite Read_not_found by done. eexists. repeat split.
      right. by split.
    + erewrite Read_failed by done. eexists. repeat split. by left.
Qed.

Lemma Read_calls_no_lock d w :
  ∃ e, trace (resourcePacketDeviceRead client d w).1.2 = trace w ++ [e] ∧
       isLock e = false ∧ isUnlock e = false.
Proof.
  pose proof (Read_effect d w) as Hread.
  destruct (resourcePacketDeviceRead client d w) as [[d' w'] res].
  destruct Hread as (e & Htrace & Hcall & _). exists e.
  unfold isLock, isUnlock. by rewrite Hcall.
Qed.

(** C6: an update whose [locked] flag changed to true calls Lock once and
    never Unlock; changed to false, Unlock once and never Lock; unchanged,
    neither.  If the call fails the update returns the wrapped error
    having made no other call; otherwise it ends with a Read. *)
Theorem C6_update_locks_or_unlocks_once d w :
  ∃ evs,
    trace (resourcePacketDeviceUpdate client d w).1.2 = trace w ++ evs ∧
    if HasChange "locked" d then
      if GetBool "locked" d then
        count isLock evs = 1%nat ∧ count isUnlock evs = 0%nat ∧
        match DevicesLock client (Id d) w with
        | (w1, Some err) =>
            resourcePacketDeviceUpdate client d w =
              (d, w1, Some ("Error locking device (" +:+ Id d +:+ "): "
                            +:+ err)) ∧
            evs = [{| ev_call := CallLock (Id d); ev_err := Some err |}]
        | (w1, None) =>
            resourcePacketDeviceUpdate client d w =
              resourcePacketDeviceRead client d w1
        end
      else
        count isUnlock evs = 1%nat ∧ count isLock evs = 0%nat ∧
        match DevicesUnlock client (Id d) w with
        | (w1, Some err) =>
            resourcePacketDeviceUpdate client d w =
              (d, w1, Some ("Error unlocking device (" +:+ Id d +:+ "): "
                            +:+ err)) ∧
            evs = [{| ev_call := CallUnlock (Id d); ev_err := Some err |}]
        | (w1, None) =>
            resourcePacketDeviceUpdate client d w =
              resourcePacketDeviceRead client d w1
        end
    else
      count isLock evs = 0%nat ∧ count isUnlock evs = 0%nat ∧
      resourcePacketDeviceUpdate client d w =
        resourcePacketDeviceRead client d w.
Proof.
  unfold resourcePacketDeviceUpdate.
  destruct (HasChange "locked" d); [destruct (GetBool "locked" d)|].
  - unfold DevicesLock.
    destruct (Lock client (Id d) (remote w)) as [r [err|]]; simpl.
    + eexists. split; [done|]. by rewrite !count_one.
    + destruct (Read_calls_no_lock d (logged (CallLock (Id d)) None r w))
        as (e & -> & Hlock & Hunlock). simpl.
      eexists. split; [by rewrite <-app_assoc|].
      rewrite !count_app, !count_one, Hlock, Hunlock. done.
  - unfold DevicesUnlock.
    destruct (Unlock client (Id d) (remote w)) as [r [err|]]; simpl.
    + eexists. split; [done|]. by rewrite !count_one.
    + destruct (Read_calls_no_lock d (logged (CallUnlock (Id d)) None r w))
        as (e & -> & Hlock & Hunlock). simpl.
      eexists. split; [by rewrite <-app_assoc|].
      rewrite !count_app, !count_one, Hlock, Hunlock. done.
  - destruct (Read_calls_no_lock d w) as (e & -> & Hlock & Hunlock).
    eexists. split; [done|]. by rewrite !count_one, Hlock, Hunlock.
Qed.

End UpdateFacts.

(** ** The refresh function *)

Section RefreshFacts.

Context {R : Type}.
Variable client : Client R.


(** C2 (as amended): when the Get of the embedded Read reports not-found,
    the refresh function does not pass the absence on as an error.  Read
    empties the local ID and succeeds; the tick then yields "no value" if
    the awaited attribute is unset locally, and otherwise makes its second
    Get with the empty ID, returning that call's error wrapped or its
    device together with the attribute value held locally. *)
Theorem C2_refresh_swallows_not_found attribute d w r err :
  Get client (Id d) (remote w) = (r, inr err) →
  notFound err = true →
  let w1 := logged (CallGet (Id d)) (Some err) r w in
  newDeviceStateRefreshFunc client attribute (d, w) =
    match GetOk attribute d with
    | None => (SetId "" d, w1, NoValue)
    | Some attr =>
        let '(w2, res) := DevicesGet client "" w1 in
        (SetId "" d, w2,
         match res with
         | inr err' => RefreshError ("Error retrieving device: " +:+ err')
         | inl dev =>
             match attr with
             | VString value => Observed dev value
             | _ => RefreshPanic
             end
         end)
    end.
Proof.
  intros Hget Hnf. unfold newDeviceStateRefreshFunc.
  erewrite Read_not_found by done.
  change (GetOk attribute (SetId "" d)) with (GetOk attribute d).
  destruct (GetOk attribute d) as [attr|]; [|done].
  change (Id (SetId "" d)) with "".
  destruct (DevicesGet client "" _) as [w2 [dev|err']]; [|done].
  by destruct attr.
Qed.

(** A tick whose embedded Read succeeds and leaves the awaited attribute set
    makes a second [Get], for the ID as Read left it. *)
Lemma refresh_second_fetch attribute d w value :
  let '(d1, w1, err) := resourcePacketDeviceRead client d w in
  err = None →
  GetOk attribute d1 = Some (VString value) →
  let '(w2, res) := DevicesGet client (Id d1) w1 in
  newDeviceStateRefreshFunc client attribute (d, w) =
    (d1, w2,
     match res with
     | inl dev2 => Observed dev2 value
     | inr err => RefreshError ("Error retrieving device: " +:+ err)
     end) ∧
  ∃ e1 e2,
    trace w2 = trace w ++ [e1; e2] ∧
    ev_call e1 = CallGet (Id d) ∧ ev_call e2 = CallGet (Id d1).
Proof.
  unfold newDeviceStateRefreshFunc.
  pose proof (Read_effect client d w) as Hread.
  destruct (resourcePacketDeviceRead client d w) as [[d1 w1] err].
  destruct Hread as (e1 & Htrace & Hcall & _).
  intros -> Hattr. rewrite Hattr. unfold DevicesGet.
  destruct (Get client (Id d1) (remote w1)) as [r2 res].
  split; [by destruct res|].
  eexists e1, _. simpl. rewrite Htrace, <-app_assoc. done.
Qed.

(** A tick whose first fetch finds the device and leaves the awaited
    attribute set fetches the device a second time. *)
Lemma refresh_two_fetches attribute d w r1 dev1 value :
  Get client (Id d) (remote w) = (r1, inl dev1) →
  GetOk attribute (populate dev1 d) = Some (VString value) →
  newDeviceStateRefreshFunc client attribute (d, w) =
    let w1 := logged (CallGet (Id d)) None r1 w in
    let '(r2, res) := Get client (Id d) r1 in
    (populate dev1 d, logged (CallGet (Id d)) (errOf res) r2 w1,
     match res with
     | inl dev2 => Observed dev2 value
     | inr err => RefreshError ("Error retrieving device: " +:+ err)
     end).
Proof.
  intros Hget Hattr. unfold newDeviceStateRefreshFunc.
  erewrite Read_found by done. rewrite Hattr, populate_id.
  unfold DevicesGet. simpl.
  by destruct (Get client (Id d) r1) as [r2 [dev2|err]].
Qed.

Lemma GetOk_state dev d value :
  GetOk "state" (populate dev d) = Some (VString value) →
  value = State dev.
Proof.
  unfold GetOk. rewrite populate_state. simpl.
  case_bool_decide; naive_solver.
Qed.

(** What one tick does to the world and to the ID: it begins with a [Get]
    for the tracked ID, and the ID survives unless a [Get] reported
    not-found. *)
Lemma refresh_effect attribute d w :
  let '(d', w', _) := newDeviceStateRefreshFunc client attribute (d, w) in
  ∃ e rest,
    trace w' = trace w ++ e :: rest ∧ ev_call e = CallGet (Id d) ∧
    (Id d' = Id d ∨ Id d' = "") ∧
    (Forall (λ e, isGetNotFound e = false) (e :: rest) → Id d' = Id d).
Proof.
  unfold newDeviceStateRefreshFunc.
  pose proof (Read_effect client d w) as Hread.
  destruct (resourcePacketDeviceRead client d w) as [[d1 w1] res].
  destruct Hread as (e & Htrace & Hcall & Hid).
  assert ((Id d1 = Id d ∨ Id d1 = "") ∧
          ∀ rest, Forall (λ e, isGetNotFound e = false) (e :: rest) →
                  Id d1 = Id d) as [Hid1 Hid2].
  { split; [destruct Hid as [?|[? _]]; auto|]. intros rest Hclean.
    apply Forall_cons in Hclean as [He _].
    destruct Hid as [|[_ Hnf]]; congruence. }
  destruct res as [err|]; [by exists e, []; rewrite Htrace; eauto|].
  destruct (GetOk attribute d1) as [attr|];
    [|by exists e, []; rewrite Htrace; eauto].
  unfold DevicesGet.
  destruct (Get client (Id d1) (remote w1)) as [r2 res].
  assert (∃ e2, trace (logged (CallGet (Id d1)) (errOf res) r2 w1)
                = trace w ++ [e; e2]) as [e2 Htrace2].
  { eexists. simpl. rewrite Htrace, <-app_assoc. done. }
  destruct res as [dev|err]; [destruct attr|];
    exists e, [e2]; rewrite Htrace2; eauto.
Qed.

End RefreshFacts.

(** ** Waiting for a device attribute *)

Section DeviceWaitFacts.

Context {R : Type}.
Variable client : Client R.
Variable backoff : nat → Z.


Lemma WaitForDeviceAttribute_total d target pending attribute w :
  is_Some (WaitForDeviceAttribute client backoff d target pending attribute w).
Proof. by apply WaitForState_total. Qed.

(** What a whole wait does to the world and to the ID. *)
Lemma pollLoop_device_effect target pending attribute fuel :
  ∀ tries now d w run,
  pollLoop backoff (deviceStateConf client target pending attribute)
    fuel tries now (d, w) = Some run →
  ∃ evs,
    trace (final run).2 = trace w ++ evs ∧
    (now ≤ 60 * time.Minute →
     ∃ e rest, evs = e :: rest ∧ ev_call e = CallGet (Id d)) ∧
    (Id (final run).1 = Id d ∨ Id (final run).1 = "") ∧
    (Forall (λ e, isGetNotFound e = false) evs → Id (final run).1 = Id d).
Proof.
  set (conf := deviceStateConf client target pending attribute).
  induction fuel as [|fuel IH]; intros tries now d w run Hrun; [done|].
  destruct (Z.le_gt_cases now (Timeout conf)) as [Hnow|Hnow].
  - pose proof (refresh_effect client attribute d w) as Htick.
    change (newDeviceStateRefreshFunc client attribute) with (Refresh conf)
      in Htick.
    destruct (Refresh conf (d, w)) as [[d1 w1] r] eqn:Hstep.
    destruct Htick as (e & rest & Htrace & Hcall & Hid & Hclean).
    destruct (verdict conf r) as [res|] eqn:Hres.
    + erewrite pollLoop_stop in Hrun; [|done|by rewrite Hstep].
      rewrite Hstep in Hrun. simplify_eq. cbn [final fst snd].
      exists (e :: rest). eauto 10.
    + rewrite pollLoop_continue in Hrun; [|done|by rewrite Hstep].
      rewrite Hstep in Hrun. cbn [fst snd] in Hrun.
      apply fmap_Some in Hrun as (run' & Hrun' & ->). cbn [polled final].
      apply IH in Hrun' as (evs & Htrace' & _ & Hid' & Hclean').
      exists ((e :: rest) ++ evs). split; [|split; [|split]].
      * by rewrite Htrace', Htrace, <-app_assoc.
      * eauto.
      * destruct Hid as [<-|Hempty]; [done|].
        right. destruct Hid' as [->| ->]; done.
      * intros [Hc1 Hc2]%Forall_app.
        rewrite Hclean', Hclean; done.
  - rewrite pollLoop_timeout in Hrun by done. simplify_eq. simpl.
    exists []. rewrite app_nil_r. split; [done|]. split; [|by auto].
    intros Hle. change (Timeout conf) with (60 * time.Minute) in Hnow. lia.
Qed.

(** The ID after one tick: emptied if the [Get] of the embedded Read
    reported not-found, kept otherwise, whatever the second [Get] did. *)
Lemma refresh_id attribute s :
  Id (newDeviceStateRefreshFunc client attribute s).1.1 =
    if readNotFound client s then "" else Id s.1.
Proof.
  destruct s as [d w].
  assert (Id (resourcePacketDeviceRead client d w).1.1 =
            if readNotFound client (d, w) then "" else Id d) as Hread.
  { unfold readNotFound. simpl.
    destruct (Get client (Id d) (remote w)) as [r [dev|err]] eqn:Hget.
    - erewrite Read_found by done. apply populate_id.
    - simpl. destruct (notFound err) eqn:Hnf.
      + by erewrite Read_not_found.
      + by erewrite Read_failed. }
  transitivity (Id (resourcePacketDeviceRead client d w).1.1); [|exact Hread].
  clear Hread. unfold newDeviceStateRefreshFunc.
  destruct (resourcePacketDeviceRead client d w) as [[d1 w1] [err|]]; [done|].
  destruct (GetOk attribute d1) as [attr|]; [|done].
  destruct (DevicesGet client (Id d1) w1) as [w2 [dev|err]]; [|done].
  by destruct attr.
Qed.

Lemma stateAfter_id_empty target pending attribute n : ∀ s,
  Id s.1 = "" →
  Id (stateAfter (deviceStateConf client target pending attribute) n s).1 = "".
Proof.
  induction n as [|n IH]; intros s Hid; [done|].
  simpl. apply IH. rewrite refresh_id.
  by destruct (readNotFound client s).
Qed.

(** The ID after [n] ticks is the one the wait began with if no embedded
    Read met a not-found, and empty if one did. *)
Lemma stateAfter_id_kept target pending attribute n : ∀ s,
  (∀ k, (k < n)%nat →
        readNotFound client
          (stateAfter (deviceStateConf client target pending attribute) k s)
          = false) →
  Id (stateAfter (deviceStateConf client target pending attribute) n s).1
    = Id s.1.
Proof.
  induction n as [|n IH]; intros s Hnone; [done|].
  simpl. rewrite IH.
  - rewrite refresh_id.
    assert (readNotFound client s = false) as ->
      by exact (Hnone 0%nat ltac:(lia)).
    done.
  - intros k Hk. apply (Hnone (Datatypes.S k)). lia.
Qed.

Lemma stateAfter_id_emptied target pending attribute n : ∀ s k,
  (k < n)%nat →
  readNotFound client
    (stateAfter (deviceStateConf client target pending attribute) k s) = true →
  Id (stateAfter (deviceStateConf client target pending attribute) n s).1 = "".
Proof.
  induction n as [|n IH]; intros s k Hk Hgone; [lia|].
  simpl. destruct k as [|k].
  - apply stateAfter_id_empty. rewrite refresh_id.
    change (readNotFound client s = true) in Hgone. by rewrite Hgone.
  - apply (IH _ k); [lia | done].
Qed.

(** C5 (as amended): when the remote Create succeeds, the wait starts from
    the returned ID (its first call is a Get for that ID), and Create
    returns.  If the wait fails, Create returns the wait's error wrapped
    and does not itself undo the ID.  The resource data then carries the
    empty ID if, on some tick of the wait, the Get of the embedded Read
    reported not-found, and the returned ID if on no tick it did; a
    not-found from a tick's second Get fails the wait and leaves the ID.
    In particular the ID is kept when no Get at all reported not-found. *)
Theorem C5_create_keeps_id_unless_read_not_found d w r dev :
  Create client (createOptions d) (remote w) = (r, inl dev) →
  let conf :=
    deviceStateConf client "active" ["queued"; "provisioning"] "state" in
  let s0 := (SetId (ID dev) d,
             logged (CallCreate (createOptions d)) None r w) in
  ∃ d' w' out e rest,
    resourcePacketDeviceCreate client backoff d w = Some (d', w', out) ∧
    trace w' =
      trace w ++
      {| ev_call := CallCreate (createOptions d); ev_err := None |} ::
      e :: rest ∧
    ev_call e = CallGet (ID dev) ∧
    ∀ run err,
      WaitForDeviceAttribute client backoff (SetId (ID dev) d) "active"
        ["queued"; "provisioning"] "state"
        (logged (CallCreate (createOptions d)) None r w) = Some run →
      result run = WaitErr err →
      (d', w') = final run ∧
      out = Returned (Some ("Error waiting for device (" +:+ Id d'
                            +:+ ") to become ready: " +:+ Error err)) ∧
      (Id d' = ID dev ∨ Id d' = "") ∧
      ((∃ k, (k < length (polls run))%nat ∧
             readNotFound client (stateAfter conf k s0) = true) →
       Id d' = "") ∧
      ((∀ k, (k < length (polls run))%nat →
             readNotFound client (stateAfter conf k s0) = false) →
       Id d' = ID dev) ∧
      (Forall (λ e, isGetNotFound e = false) (e :: rest) →
       Id d' = ID dev).
Proof.
  intros Hcreate conf s0. unfold resourcePacketDeviceCreate, DevicesCreate.
  rewrite Hcreate. simpl errOf.
  set (d0 := SetId (ID dev) d).
  set (w0 := logged (CallCreate (createOptions d)) None r w).
  destruct (WaitForDeviceAttribute_total d0 "active"
              ["queued"; "provisioning"] "state" w0) as [run Hrun].
  rewrite Hrun. simpl.
  pose proof Hrun as Heffect.
  apply pollLoop_device_effect in Heffect
    as (evs & Htrace & Hfirst & Hid & Hclean).
  destruct Hfirst as (e & rest & -> & Hcall); [done|].
  pose proof (pollLoop_final _ _ _ _ _ _ _ Hrun) as Hticks.
  fold conf in Hticks. change (d0, w0) with s0 in Hticks.
  destruct (final run) as [d1 w1] eqn:Hfinal. simpl in *.
  assert (trace w1 = trace w ++
            {| ev_call := CallCreate (createOptions d); ev_err := None |} ::
            e :: rest) as Htrace1.
  { by rewrite Htrace, <-app_assoc. }
  assert (Id d1 = Id (stateAfter conf (length (polls run)) s0).1) as Hid1
    by (by rewrite <-Hticks).
  destruct (result run) as [snapshot|err|] eqn:Hresult.
  - pose proof (Read_effect client d1 w1) as Hread.
    destruct (resourcePacketDeviceRead client d1 w1) as [[d2 w2] res].
    destruct Hread as (e2 & Htrace2 & _).
    exists d2, w2, (Returned res), e, (rest ++ [e2]).
    split; [done|]. split.
    { rewrite Htrace2, Htrace1, <-app_assoc. done. }
    split; [done|]. intros run' err' Hrun'. congruence.
  - eexists d1, w1, _, e, rest. split; [done|]. split; [done|].
    split; [done|]. intros run' err' Hrun' Hresult'.
    simplify_eq. rewrite Hfinal. rewrite Hresult in Hresult'. simplify_eq.
    split; [done|]. split; [done|]. split; [done|].
    split; [|split; [|done]].
    + intros (k & Hk & Hgone). rewrite Hid1.
      exact (stateAfter_id_emptied _ _ _ _ s0 k Hk Hgone).
    + intros Hnone. rewrite Hid1.
      exact (stateAfter_id_kept _ _ _ _ s0 Hnone).
  - eexists d1, w1, _, e, rest. split; [done|]. split; [done|].
    split; [done|]. intros run' err' Hrun'. congruence.
Qed.

End DeviceWaitFacts.

(** ** The wait as a whole *)


(** C8: if, the earlier ticks having kept the wait going, call number [n] of
    the refresh function is made in time and observes a value that is
    neither the target nor pending, the wait ends with the unexpected-state
    error carrying that value.  It ends there: the state it leaves is the
    one after that call and the refresh function has been called [n + 1]
    times, whatever later calls would have returned. *)
Theorem C8_unexpected_value_aborts_the_wait
    (S Snap : Type) (backoff : nat → Z) (conf : StateChangeConf S Snap)
    (s : S) (n : nat) (snapshot : Snap) (value : string) :
  0 < MinTimeout conf →
  (∀ k, (k < n)%nat → verdict conf (resultAt conf k s) = None) →
  resultAt conf n s = Observed snapshot value →
  value ≠ Target conf → value ∉ Pending conf →
  instant backoff conf n ≤ Timeout conf →
  ∃ run,
    WaitForState backoff conf s = Some run ∧
    result run = WaitErr (UnexpectedState value (Target conf)) ∧
    final run = stateAfter conf (Datatypes.S n) s ∧
    length (polls run) = Datatypes.S n.
Proof.
  intros Hmin Hbefore Hat Hne Hnin Hnow.
  eapply pollLoop_unexpected; eauto; [lia|].
  pose proof (instantFrom_lower backoff conf n 0%nat (Delay conf)) as Hlow.
  unfold instant in Hnow.
  assert (Z.of_nat n ≤ (Timeout conf - Delay conf) / MinTimeout conf)
    by (apply Z.div_le_lower_bound; lia).
  unfold maxPolls, budget. lia.
Qed.

(** C10: on every tick whose embedded Read succeeds and leaves the awaited
    attribute set, [Get] is called twice, first by the embedded Read and
    then for the snapshot.  The value handed to the wait is the attribute as
    the embedded Read left it, which for [state] and a first fetch that found
    the device is the state of that first device; the snapshot is the device
    of the second [Get], and an error of the second [Get] becomes the tick's
    error although the first fetch succeeded.  Value and snapshot can
    describe different remote states. *)
Theorem C10_tick_fetches_the_device_twice :
  (∀ (R : Type) (client : Client R) attribute d w value,
     let '(d1, w1, err) := resourcePacketDeviceRead client d w in
     err = None →
     GetOk attribute d1 = Some (VString value) →
     let '(w2, res) := DevicesGet client (Id d1) w1 in
     newDeviceStateRefreshFunc client attribute (d, w) =
       (d1, w2,
        match res with
        | inl dev2 => Observed dev2 value
        | inr err => RefreshError ("Error retrieving device: " +:+ err)
        end) ∧
     ∃ e1 e2,
       trace w2 = trace w ++ [e1; e2] ∧
       ev_call e1 = CallGet (Id d) ∧ ev_call e2 = CallGet (Id d1)) ∧
  (∀ (R : Type) (client : Client R) attribute d w r1 dev1 value,
     Get client (Id d) (remote w) = (r1, inl dev1) →
     GetOk attribute (populate dev1 d) = Some (VString value) →
     let w1 := logged (CallGet (Id d)) None r1 w in
     let '(r2, res) := Get client (Id d) r1 in
     newDeviceStateRefreshFunc client attribute (d, w) =
       (populate dev1 d, logged (CallGet (Id d)) (errOf res) r2 w1,
        match res with
        | inl dev2 => Observed dev2 value
        | inr err => RefreshError ("Error retrieving device: " +:+ err)
        end) ∧
     (attribute = "state" → value = State dev1)) ∧
  (∃ dev2 value,
     (newDeviceStateRefreshFunc scriptedClient "state"
        (noData "dev-1",
         start (script [inl (device "provisioning" []);
                        inl (device "active" [])]))).2
       = Observed dev2 value ∧
     State dev2 ≠ value).
Proof.
  split; [|split].
  - intros R client attribute d w value.
    apply refresh_second_fetch.
  - intros R client attribute d w r1 dev1 value Hget Hattr w1.
    pose proof (refresh_two_fetches client attribute d w r1 dev1 value
                  Hget Hattr) as Htick.
    destruct (Get client (Id d) r1) as [r2 res]. split; [done|].
    intros ->. by eapply GetOk_state.
  - by exists (device "active" []), "provisioning".
Qed.

(** ** Concrete runs *)

(** C1 as the spec states it fails: with two public IPv4 addresses in the
    list, Read records the second one, not the first. *)
Lemma C1_counterexample_later_address_overwrites :
  let net := [address 4 "147.1.2.3" true; address 4 "1.1.1.1" true] in
  let d' := (resourcePacketDeviceRead scriptedClient (noData "dev-1")
               (start (script [inl (device "active" net)]))).1.1 in
  head (ofClass "ipv4_address" net) = Some "147.1.2.3" ∧
  rd_attrs d' !! "ipv4_address" = Some (VString "1.1.1.1") ∧
  rd_attrs d' !! "ipv4_address" ≠ Some (VString "147.1.2.3").
Proof. vm_compute. repeat split; congruence. Qed.

Lemma C1_witness :
  let net := [address 4 "10.0.0.5" false; address 4 "147.1.2.3" true;
              address 6 "2604::1" true; address 4 "1.1.1.1" true] in
  Get scriptedClient "dev-1" (script [inl (device "active" net)])
    = (script [], inl (device "active" net)) ∧
  rd_attrs (resourcePacketDeviceRead scriptedClient (noData "dev-1")
              (start (script [inl (device "active" net)]))).1.1
    !! "ipv4_address" = Some (VString "1.1.1.1").
Proof.
  intros net. split; [reflexivity|].
  exact (C1_last_address_of_class_is_recorded scriptedClient
           (noData "dev-1") (start (script [inl (device "active" net)]))
           (script []) (device "active" net) "ipv4_address" eq_refl
           (list_elem_of_here _ _)).
Defined.

(** C2 as the spec states it fails: a not-found from Get leaves the refresh
    function returning "no value" and no error, exactly what it returns for
    a device that exists and has no state yet. *)
Lemma C2_counterexample_absence_returned_as_no_value :
  Get scriptedClient "dev-1" (script []) = (script [], inr gone) ∧
  notFound gone = true ∧
  (newDeviceStateRefreshFunc scriptedClient "state"
     (noData "dev-1", start (script []))).2 = NoValue ∧
  (newDeviceStateRefreshFunc scriptedClient "state"
     (noData "dev-1", start (script [inl (device "" [])]))).2 = NoValue.
Proof. by vm_compute. Qed.

Lemma C2_witness :
  Get scriptedClient "dev-1" (script []) = (script [], inr gone) ∧
  notFound gone = true ∧
  newDeviceStateRefreshFunc scriptedClient "state"
    (noData "dev-1", start (script [])) =
    (SetId "" (noData "dev-1"),
     logged (CallGet "dev-1") (Some gone) (script []) (start (script [])),
     NoValue).
Proof.
  split; [reflexivity|]. split; [reflexivity|].
  exact (C2_refresh_swallows_not_found scriptedClient "state"
           (noData "dev-1") (start (script [])) (script []) gone
           eq_refl eq_refl).
Defined.

(** C3, on a device that is already gone.  The refresh's Read takes the
    not-found for success and empties the ID.  With the state of an earlier
    Read still held locally, the second Get fails, the wait ends with that
    error and Delete returns it wrapped; with no state held locally every
    tick yields "no value" and Delete returns the wait's timeout wrapped.
    Either way the [Delete] call, which would also have answered not-found,
    is never made. *)
Lemma C3_delete_of_vanished_device_fails :
  Delete scriptedClient "" vanished = (vanished, Some gone) ∧
  (∀ backoff : nat → Z,
     (λ '(d', w', out), (Id d', trace w', out)) <$>
       resourcePacketDeviceDelete scriptedClient backoff
         (tracked "dev-1" "active") (start vanished) =
     Some ("",
           [{| ev_call := CallGet "dev-1"; ev_err := Some gone |};
            {| ev_call := CallGet ""; ev_err := Some gone |}],
           Returned (Some "Error waiting for device to be active for destroy (): Error retrieving device: GET /devices: 404 Not Found"))) ∧
  (λ '(d', w', out), (Id d', count isGet (trace w'), length (trace w'), out))
    <$> resourcePacketDeviceDelete scriptedClient steady (noData "dev-1")
          (start vanished) =
  Some ("", 1197%nat, 1197%nat,
        Returned (Some "Error waiting for device to be active for destroy (): timeout while waiting for state to become 'active'")).
Proof. split; [done|]. split; [intros backoff|]; by vm_compute. Qed.

Lemma C4_witness :
  Get scriptedClient "dev-1" (script [inr "500 Internal Server Error"])
    = (script [], inr "500 Internal Server Error") ∧
  let '(d', w', res) :=
    resourcePacketDeviceRead scriptedClient (tracked "dev-1" "active")
      (start (script [inr "500 Internal Server Error"])) in
  w' = logged (CallGet "dev-1") (Some "500 Internal Server Error") (script [])
         (start (script [inr "500 Internal Server Error"])) ∧
  res = Some "Error retrieving device: 500 Internal Server Error" ∧
  d' = tracked "dev-1" "active".
Proof.
  split; [reflexivity|].
  exact (C4_read_on_get_error scriptedClient (tracked "dev-1" "active")
           (start (script [inr "500 Internal Server Error"])) (script [])
           "500 Internal Server Error" eq_refl).
Defined.

(** C5 as the spec states it fails: Create succeeds with ID [dev-1], the
    device disappears during the wait, the wait fails, and Create returns
    its error with the ID emptied. *)
Lemma C5_counterexample_id_cleared_during_wait :
  Create scriptedClient (createOptions (noData "")) shortLived
    = (shortLived, inl (device "queued" [])) ∧
  ID (device "queued" []) = "dev-1" ∧
  (λ '(d', _, out), (Id d', out)) <$>
    resourcePacketDeviceCreate scriptedClient steady (noData "")
      (start shortLived) =
  Some ("",
        Returned (Some "Error waiting for device () to become ready: Error retrieving device: GET /devices: 404 Not Found")).
Proof. by vm_compute. Qed.

Lemma C5_witness :
  let s := afterCreate (device "queued" [])
             [inl (device "queued" []); inr gone] in
  Create scriptedClient (createOptions (noData "")) s
    = (s, inl (device "queued" [])) ∧
  notFound gone = true ∧
  ∃ d' w' out e,
    resourcePacketDeviceCreate scriptedClient steady (noData "") (start s)
      = Some (d', w', out) ∧
    ev_call e = CallGet "dev-1" ∧ e ∈ trace w' ∧
    out = Returned (Some ("Error waiting for device (" +:+ Id d'
            +:+ ") to become ready: "
            +:+ "Error retrieving device: GET /devices: 404 Not Found")) ∧
    Id d' = "dev-1".
Proof.
  intros s. split; [reflexivity|]. split; [reflexivity|].
  destruct (C5_create_keeps_id_unless_read_not_found scriptedClient steady
              (noData "") (start s) s (device "queued" []) eq_refl)
    as (d' & w' & out & e & rest & Hcreate & Htrace & Hcall & Hfail).
  assert (∃ run,
            WaitForDeviceAttribute scriptedClient steady
              (SetId "dev-1" (noData "")) "active" ["queued"; "provisioning"]
              "state"
              (logged (CallCreate (createOptions (noData ""))) None s
                 (start s)) = Some run ∧
            result run = WaitErr (RefreshFailed
              "Error retrieving device: GET /devices: 404 Not Found") ∧
            polls run = [10 * time.Second])
    as (run & Hrun & Hresult & Hpolls).
  { eexists. split; [|split]; vm_compute; reflexivity. }
  destruct (Hfail run _ Hrun Hresult) as (_ & Hout & _ & _ & Hkept & _).
  exists d', w', out, e. split; [exact Hcreate|]. split; [exact Hcall|].
  split; [|split; [exact Hout|]].
  - rewrite Htrace. apply list_elem_of_further, list_elem_of_here.
  - apply Hkept. rewrite Hpolls. intros k Hk.
    destruct k as [|k]; [reflexivity | simpl in Hk; lia].
Defined.




Lemma C8_witness :
  let conf := deviceStateConf scriptedClient "active"
                ["queued"; "provisioning"] "state" in
  let s := (noData "dev-1",
            start (script [inl (device "queued" []); inl (device "queued" []);
                           inl (device "failed" []); inl (device "failed" []);
                           inl (device "active" []); inl (device "active" [])]))
  in
  resultAt conf 1 s = Observed (device "failed" []) "failed" ∧
  ∃ run,
    WaitForState steady conf s = Some run ∧
    result run = WaitErr (UnexpectedState "failed" "active") ∧
    final run = stateAfter conf 2 s ∧
    length (polls run) = 2%nat.
Proof.
  intros conf s. split; [reflexivity|].
  refine (C8_unexpected_value_aborts_the_wait _ _ steady conf s 1
            (device "failed" []) "failed" _ _ _ _ _ _).
  - reflexivity.
  - intros k Hk. destruct k as [|k]; [reflexivity | lia].
  - reflexivity.
  - discriminate.
  - intros Hin.
    apply elem_of_cons in Hin as [Hin|Hin]; [discriminate|].
    apply elem_of_cons in Hin as [Hin|Hin]; [discriminate|].
    by apply elem_of_nil in Hin.
  - vm_compute. discriminate.
Defined.


Lemma C10_witness :
  let s := script [inl (device "provisioning" []); inl (device "active" [])] in
  Get scriptedClient "dev-1" s
    = (script [inl (device "active" [])], inl (device "provisioning" [])) ∧
  GetOk "state" (populate (device "provisioning" []) (noData "dev-1"))
    = Some (VString "provisioning") ∧
  (newDeviceStateRefreshFunc scriptedClient "state" (noData "dev-1", start s)
   = (populate (device "provisioning" []) (noData "dev-1"),
      logged (CallGet "dev-1") None (script [])
        (logged (CallGet "dev-1") None (script [inl (device "active" [])])
           (start s)),
      Observed (device "active" []) "provisioning")) ∧
  ("state" = "state" → "provisioning" = State (device "provisioning" [])).
Proof.
  intros s. split; [reflexivity|]. split; [reflexivity|].
  exact (proj1 (proj2 C10_tick_fetches_the_device_twice) Script scriptedClient
           "state"
           (noData "dev-1") (start s) (script [inl (device "active" [])])
           (device "provisioning" []) "provisioning" eq_refl eq_refl).
Defined.

(** * Further properties of the resource *)

(** ** Read on a device that is found *)

Section ReadMore.

Context {R : Type}.
Variable client : Client R.

Lemma scanAddr_host p d addr :
  (scanAddr (p, d) addr).1 =
    if decide (classOf addr = Some "ipv4_address") then Address addr else p.
Proof.
  unfold scanAddr, classOf.
  by destruct (Family addr =? 4), (Public addr), (Family addr =? 6).
Qed.

(** The local [publicIPv4] ends up as the last public IPv4 address of the
    list, or as it began. *)
Lemma scanNetwork_host net : ∀ p d,
  (scanNetwork net (p, d)).1 =
    default p (last (ofClass "ipv4_address" net)).
Proof.
  induction net as [|addr net IH]; intros p d; [done|].
  unfold scanNetwork in *. cbn [fold_left].
  pose proof (scanAddr_host p d addr) as Hhost.
  destruct (scanAddr (p, d) addr) as [p' d']. simpl in Hhost.
  rewrite IH, Hhost. unfold ofClass. rewrite filter_cons.
  case_decide; [|done].
  rewrite fmap_cons, last_cons.
  by destruct (last (Address <$> filter _ net)).
Qed.

Lemma populate_conn dev d :
  rd_conn (populate dev d) =
    <["type" := "ssh"]>
      (<["host" := default "" (last (ofClass "ipv4_address" (Network dev)))]>
         ∅).
Proof.
  unfold populate.
  match goal with |- context [scanNetwork ?net (?p, ?d0)] =>
    pose proof (scanNetwork_host net p d0) as Hscan;
    destruct (scanNetwork net (p, d0)) as [p' d'] end.
  simpl in *. by rewrite Hscan.
Qed.

Lemma populate_prior dev d : rd_prior (populate dev d) = rd_prior d.
Proof.
  unfold populate.
  match goal with |- context [scanNetwork ?net (?p, ?d0)] =>
    pose proof (scanNetwork_rest net p d0) as Hscan;
    destruct (scanNetwork net (p, d0)) as [p' d'] end.
  simpl in *. by destruct Hscan as (_ & -> & _).
Qed.

(** X7: a Read that finds the device copies os, hostname, facility, plan,
    state and locked from it, keeps the ID and the prior state, and leaves
    every attribute other than these six and the three address attributes
    as it was (so project_id, tags and user_data are never touched). *)
Theorem Read_found_copies_and_frames d w r dev :
  Get client (Id d) (remote w) = (r, inl dev) →
  let d' := (resourcePacketDeviceRead client d w).1.1 in
  Id d' = Id d ∧ rd_prior d' = rd_prior d ∧
  rd_attrs d' !! "os" = Some (VString (OS dev)) ∧
  rd_attrs d' !! "hostname" = Some (VString (Hostname dev)) ∧
  rd_attrs d' !! "facility" = Some (VString (Facility dev)) ∧
  rd_attrs d' !! "plan" = Some (VString (Plan dev)) ∧
  rd_attrs d' !! "state" = Some (VString (State dev)) ∧
  rd_attrs d' !! "locked" = Some (VBool (Locked dev)) ∧
  ∀ key,
    key ∉ ["os"; "hostname"; "facility"; "plan"; "state"; "locked";
           "ipv4_address"; "ipv4_address_private"; "ipv6_address"] →
    rd_attrs d' !! key = rd_attrs d !! key.
Proof.
  intros Hget d'. unfold d'. erewrite Read_found by done. simpl.
  assert (∀ key,
            key ∉ ["ipv4_address"; "ipv4_address_private"; "ipv6_address"] →
            last (ofClass key (Network dev)) = None) as Hnone.
  { intros key Hkey. by rewrite ofClass_other. }
  split; [apply populate_id|]. split; [apply populate_prior|].
  repeat split.
  1-6: rewrite populate_attrs, Hnone;
    [by simplify_map_eq
    |rewrite !not_elem_of_cons; repeat split; try done;
     try apply not_elem_of_nil].
  intros key Hkey. rewrite !not_elem_of_cons in Hkey.
  rewrite populate_attrs, Hnone.
  - destruct Hkey as (? & ? & ? & ? & ? & ? & _).
    by rewrite !lookup_insert_ne.
  - rewrite !not_elem_of_cons. repeat split; try tauto;
      try apply not_elem_of_nil.
Qed.

(** X8: a Read that finds the device sets the connection info to exactly
    two entries, type "ssh" and host, the host being the last public IPv4
    address of the device's network list, or the empty string when the
    list has none. *)
Theorem Read_found_sets_connection_info d w r dev :
  Get client (Id d) (remote w) = (r, inl dev) →
  rd_conn (resourcePacketDeviceRead client d w).1.1 =
    <["type" := "ssh"]>
      (<["host" := default "" (last (ofClass "ipv4_address" (Network dev)))]>
         ∅).
Proof. intros Hget. erewrite Read_found by done. apply populate_conn. Qed.

Lemma ResourceData_eq (d1 d2 : ResourceData) :
  rd_id d1 = rd_id d2 → rd_attrs d1 = rd_attrs d2 →
  rd_prior d1 = rd_prior d2 → rd_conn d1 = rd_conn d2 → d1 = d2.
Proof. destruct d1, d2. simpl. by intros -> -> -> ->. Qed.

Lemma populate_idempotent dev d :
  populate dev (populate dev d) = populate dev d.
Proof.
  apply ResourceData_eq.
  - apply (populate_id dev (populate dev d)).
  - apply map_eq. intros key. rewrite populate_attrs.
    destruct (last (ofClass key (Network dev))) as [addr|] eqn:Hlast.
    + by rewrite populate_attrs, Hlast.
    + rewrite !lookup_insert. repeat case_decide; try done.
      all: subst key; rewrite populate_attrs, Hlast; by simplify_map_eq.
  - by rewrite !populate_prior.
  - by rewrite !populate_conn.
Qed.

(** X9: Read is idempotent on an unchanged device: a second Read that gets
    the same device as the first leaves the resource data as the first
    left it. *)
Theorem Read_twice_same_device d w r1 r2 dev :
  Get client (Id d) (remote w) = (r1, inl dev) →
  Get client (Id d) r1 = (r2, inl dev) →
  let '(d1, w1, _) := resourcePacketDeviceRead client d w in
  resourcePacketDeviceRead client d1 w1 =
    (d1, logged (CallGet (Id d)) None r2 w1, None).
Proof.
  intros Hget1 Hget2. erewrite Read_found by done.
  erewrite Read_found; rewrite populate_id; [|done].
  by rewrite populate_idempotent.
Qed.

(** *** Typing *)

Lemma Set_wellTyped key v d :
  Type_ <$> resourcePacketDevice !! key = Some (typeOf v) →
  wellTyped d → wellTyped (Set_ key v d).
Proof. intros Hkey Hd. by apply map_Forall_insert_2. Qed.

Lemma scanAddr_wellTyped p d addr :
  wellTyped d → wellTyped (scanAddr (p, d) addr).2.
Proof.
  intros Hd. unfold scanAddr.
  destruct (Family addr =? 4), (Public addr), (Family addr =? 6); simpl;
    try done; by apply Set_wellTyped.
Qed.

Lemma scanNetwork_wellTyped net : ∀ p d,
  wellTyped d → wellTyped (scanNetwork net (p, d)).2.
Proof.
  induction net as [|addr net IH]; intros p d Hd; [done|].
  unfold scanNetwork in *. cbn [fold_left].
  pose proof (scanAddr_wellTyped p d addr Hd) as Hstep.
  destruct (scanAddr (p, d) addr) as [p' d']. by apply IH.
Qed.

Lemma populate_wellTyped dev d : wellTyped d → wellTyped (populate dev d).
Proof.
  intros Hd. unfold populate.
  match goal with |- context [scanNetwork ?net (?p, ?d0)] =>
    pose proof (scanNetwork_wellTyped net p d0) as Hscan;
    destruct (scanNetwork net (p, d0)) as [p' d'] end.
  simpl in *. apply Hscan. by repeat apply Set_wellTyped.
Qed.

(** X10: Read stores every value under a declared attribute of the declared
    type, so resource data that fits the schema still fits it after any
    Read, whatever Get returned; none of the [d.Set] calls, whose errors
    the code ignores, can fail. *)
Theorem Read_keeps_schema_typing d w :
  wellTyped d → wellTyped (resourcePacketDeviceRead client d w).1.1.
Proof.
  intros Hd.
  destruct (Get client (Id d) (remote w)) as [r [dev|err]] eqn:Hget.
  - erewrite Read_found by done. by apply populate_wellTyped.
  - destruct (notFound err) eqn:Hnf.
    + by erewrite Read_not_found.
    + by erewrite Read_failed.
Qed.

End ReadMore.

(** ** What a wait preserves *)

Section WaitInvariants.

Context {S Snap : Type}.
Variable backoff : nat → Z.
Variable conf : StateChangeConf S Snap.

(** A property of the state that every refresh call keeps holds when the
    wait is over, and a wait that did not time out ended on the verdict of
    a refresh call made in such a state. *)
Lemma pollLoop_last_tick (I : S → Prop) :
  (∀ s, I s → I (Refresh conf s).1) →
  ∀ fuel tries now s run,
    I s →
    pollLoop backoff conf fuel tries now s = Some run →
    I (final run) ∧
    (result run = WaitErr (TimedOut (Target conf)) ∨
     ∃ s0, I s0 ∧ final run = (Refresh conf s0).1 ∧
           verdict conf (Refresh conf s0).2 = Some (result run)).
Proof.
  intros Hstep.
  induction fuel as [|fuel IH]; intros tries now s run Hs Hrun; [done|].
  destruct (Z.le_gt_cases now (Timeout conf)) as [Hnow|Hnow].
  - destruct (verdict conf (Refresh conf s).2) as [res|] eqn:Hres.
    + erewrite pollLoop_stop in Hrun by done. simplify_eq. simpl.
      split; [by apply Hstep|]. right. by exists s.
    + rewrite pollLoop_continue in Hrun by done.
      apply fmap_Some in Hrun as (run' & Hrun' & ->).
      apply IH in Hrun'; [done|]. by apply Hstep.
  - rewrite pollLoop_timeout in Hrun by done. simplify_eq. simpl.
    split; [done|]. by left.
Qed.

End WaitInvariants.

(** ** What a tick of the device refresh does *)

Section TickMore.

Context {R : Type}.
Variable client : Client R.
Variable backoff : nat → Z.

(** The refresh function by the outcome of its embedded Read. *)
Lemma refresh_cases attribute d w :
  let '(d1, w1, err) := resourcePacketDeviceRead client d w in
  newDeviceStateRefreshFunc client attribute (d, w) =
    match err with
    | Some err => (d1, w1, RefreshError err)
    | None =>
        match GetOk attribute d1 with
        | None => (d1, w1, NoValue)
        | Some attr =>
            let '(w2, res) := DevicesGet client (Id d1) w1 in
            (d1, w2,
             match res with
             | inr err => RefreshError ("Error retrieving device: " +:+ err)
             | inl dev =>
                 match attr with
                 | VString value => Observed dev value
                 | _ => RefreshPanic
                 end
             end)
        end
    end.
Proof.
  unfold newDeviceStateRefreshFunc.
  destruct (resourcePacketDeviceRead client d w) as [[d1 w1] [err|]]; [done|].
  destruct (GetOk attribute d1) as [attr|]; [|done].
  destruct (DevicesGet client (Id d1) w1) as [w2 [dev|err]]; [|done].
  by destruct attr.
Qed.

Lemma DevicesGet_trace id w :
  ∃ e, trace (DevicesGet client id w).1 = trace w ++ [e] ∧ isGet e = true.
Proof.
  unfold DevicesGet. destruct (Get client id (remote w)) as [r res].
  by eexists.
Qed.

(** A tick makes one or two calls, all of them [Get]s. *)
Lemma refresh_calls attribute d w :
  ∃ evs,
    trace (newDeviceStateRefreshFunc client attribute (d, w)).1.2
      = trace w ++ evs ∧
    Forall (λ e, isGet e = true) evs ∧
    (1 ≤ length evs ≤ 2)%nat.
Proof.
  pose proof (refresh_cases attribute d w) as Hcases.
  pose proof (Read_effect client d w) as Hread.
  destruct (resourcePacketDeviceRead client d w) as [[d1 w1] err].
  destruct Hread as (e1 & Htrace & Hcall & _).
  assert (isGet e1 = true) as Hget by (unfold isGet; by rewrite Hcall).
  rewrite Hcases. clear Hcases.
  destruct err as [err|]; [|destruct (GetOk attribute d1) as [attr|]].
  - exists [e1]. simpl. repeat split; [done|by repeat constructor|lia..].
  - destruct (DevicesGet_trace (Id d1) w1) as (e2 & Htrace2 & Hget2).
    destruct (DevicesGet client (Id d1) w1) as [w2 res]. simpl in *.
    exists [e1; e2]. rewrite Htrace2, Htrace, <-app_assoc.
    repeat split; [by repeat constructor|simpl; lia..].
  - exists [e1]. simpl. repeat split; [done|by repeat constructor|lia..].
Qed.

(** A tick keeps resource data well typed. *)
Lemma refresh_wellTyped attribute d w :
  wellTyped d →
  wellTyped (newDeviceStateRefreshFunc client attribute (d, w)).1.1.
Proof.
  intros Hd.
  pose proof (refresh_cases attribute d w) as Hcases.
  pose proof (Read_keeps_schema_typing client d w Hd) as Hread.
  destruct (resourcePacketDeviceRead client d w) as [[d1 w1] err].
  rewrite Hcases. simpl in Hread.
  destruct err as [err|]; [done|].
  destruct (GetOk attribute d1) as [attr|]; [|done].
  by destruct (DevicesGet client (Id d1) w1) as [w2 res].
Qed.

(** A tick that observes a value has read it from the resource data it
    leaves behind. *)
Lemma refresh_observed attribute d w snapshot value :
  (newDeviceStateRefreshFunc client attribute (d, w)).2
    = Observed snapshot value →
  GetOk attribute (newDeviceStateRefreshFunc client attribute (d, w)).1.1
    = Some (VString value).
Proof.
  pose proof (refresh_cases attribute d w) as Hcases.
  destruct (resourcePacketDeviceRead client d w) as [[d1 w1] err].
  rewrite Hcases. clear Hcases.
  destruct err as [err|]; [done|].
  destruct (GetOk attribute d1) as [attr|] eqn:Hattr; [|done].
  destruct (DevicesGet client (Id d1) w1) as [w2 [dev|err]]; [|done].
  destruct attr; simpl; intros; by simplify_eq.
Qed.

(** The awaited value, if the tick finds one, has the declared type of the
    attribute. *)
Lemma GetOk_declared attribute d attr :
  wellTyped d → GetOk attribute d = Some attr → declared attribute attr.
Proof.
  intros Hd. unfold GetOk, nonZero.
  destruct (rd_attrs d !! attribute) as [v|] eqn:Hv; [|done].
  destruct (isZero v); [done|]. intros [= <-]. by eapply Hd.
Qed.

Lemma refresh_result_typed attribute d w t :
  wellTyped d →
  Type_ <$> resourcePacketDevice !! attribute = Some t →
  match (newDeviceStateRefreshFunc client attribute (d, w)).2 with
  | Observed _ _ => t = TypeString
  | RefreshPanic => t ≠ TypeString
  | _ => True
  end.
Proof.
  intros Hd Ht.
  pose proof (refresh_cases attribute d w) as Hcases.
  pose proof (Read_keeps_schema_typing client d w Hd) as Hread.
  destruct (resourcePacketDeviceRead client d w) as [[d1 w1] err].
  rewrite Hcases. simpl in Hread. clear Hcases.
  destruct err as [err|]; [done|].
  destruct (GetOk attribute d1) as [attr|] eqn:Hattr; [|done].
  apply GetOk_declared in Hattr; [|done]. unfold declared in Hattr.
  rewrite Ht in Hattr.
  destruct (DevicesGet client (Id d1) w1) as [w2 [dev|err]]; [|done].
  injection Hattr as ->. by destruct attr.
Qed.

End TickMore.

(** ** Device waits *)

Lemma verdict_ok {S Snap : Type} (conf : StateChangeConf S Snap) r snapshot :
  verdict conf r = Some (WaitOk snapshot) → r = Observed snapshot (Target conf).
Proof.
  destruct r as [|snapshot' value|msg|]; simpl; try done.
  repeat case_bool_decide; naive_solver.
Qed.

Lemma verdict_panic {S Snap : Type} (conf : StateChangeConf S Snap) r :
  verdict conf r = Some WaitPanic → r = RefreshPanic.
Proof.
  destruct r as [|snapshot' value|msg|]; simpl; try done.
  by repeat case_bool_decide.
Qed.

Section WaitMore.

Context {R : Type}.
Variable client : Client R.
Variable backoff : nat → Z.

(** X12: when a wait succeeds, the resource data it leaves behind holds the
    target value in the awaited attribute. *)
Theorem wait_success_leaves_target d target pending attribute w run snapshot :
  WaitForDeviceAttribute client backoff d target pending attribute w
    = Some run →
  result run = WaitOk snapshot →
  GetOk attribute (final run).1 = Some (VString target).
Proof.
  intros Hrun Hresult.
  eapply (pollLoop_last_tick _ _ (λ _, True)) in Hrun as [_ Hlast]; [|done..].
  rewrite Hresult in Hlast.
  destruct Hlast as [|([d0 w0] & _ & -> & Hverdict)]; [done|].
  apply verdict_ok in Hverdict. by eapply refresh_observed.
Qed.

(** A wait keeps resource data well typed, does not end in a failed type
    assertion on an attribute declared as a string and does not succeed on
    any other. *)
Lemma wait_typed d target pending attribute w run t :
  wellTyped d →
  Type_ <$> resourcePacketDevice !! attribute = Some t →
  WaitForDeviceAttribute client backoff d target pending attribute w
    = Some run →
  wellTyped (final run).1 ∧
  (t = TypeString → result run ≠ WaitPanic) ∧
  (t ≠ TypeString → ∀ snapshot, result run ≠ WaitOk snapshot).
Proof.
  intros Hd Ht Hrun.
  eapply (pollLoop_last_tick _ _ (λ s, wellTyped s.1)) in Hrun
    as [Hfinal Hlast]; [|by intros [d0 w0]; apply refresh_wellTyped|done].
  split; [done|].
  destruct Hlast as [->|([d0 w0] & Hd0 & _ & Hverdict)]; [done|].
  pose proof (refresh_result_typed client attribute d0 w0 t Hd0 Ht) as Htyped.
  change (newDeviceStateRefreshFunc client attribute) with
    (Refresh (deviceStateConf client target pending attribute)) in Htyped.
  split.
  - intros -> Hpanic. rewrite Hpanic in Hverdict.
    apply verdict_panic in Hverdict. by rewrite Hverdict in Htyped.
  - intros Hne snapshot Hok. rewrite Hok in Hverdict.
    apply verdict_ok in Hverdict. by rewrite Hverdict in Htyped.
Qed.

(** X1: a wait on an attribute that the schema declares with a type other
    than string, such as locked, never succeeds on well-typed resource
    data: a value that is set makes the tick fail its type assertion. *)
Theorem wait_on_non_string_attribute_never_succeeds
    d target pending attribute w run t :
  wellTyped d →
  Type_ <$> resourcePacketDevice !! attribute = Some t →
  t ≠ TypeString →
  WaitForDeviceAttribute client backoff d target pending attribute w
    = Some run →
  ∀ snapshot, result run ≠ WaitOk snapshot.
Proof.
  intros Hd Ht Hne Hrun. by eapply wait_typed.
Qed.

(** The calls of a wait: [Get]s only, at least one and at most two for
    every poll. *)
Lemma pollLoop_device_calls target pending attribute fuel :
  ∀ tries now d w run,
  pollLoop backoff (deviceStateConf client target pending attribute)
    fuel tries now (d, w) = Some run →
  ∃ evs,
    trace (final run).2 = trace w ++ evs ∧
    Forall (λ e, isGet e = true) evs ∧
    (length (polls run) ≤ length evs ≤ 2 * length (polls run))%nat.
Proof.
  set (conf := deviceStateConf client target pending attribute).
  induction fuel as [|fuel IH]; intros tries now d w run Hrun; [done|].
  destruct (Z.le_gt_cases now (Timeout conf)) as [Hnow|Hnow].
  - destruct (refresh_calls client attribute d w)
      as (evs1 & Htrace & Hgets & Hlen).
    change (newDeviceStateRefreshFunc client attribute) with (Refresh conf)
      in Htrace.
    destruct (Refresh conf (d, w)) as [[d1 w1] r] eqn:Hstep.
    simpl in Htrace.
    destruct (verdict conf r) as [res|] eqn:Hres.
    + erewrite pollLoop_stop in Hrun; [|done|by rewrite Hstep].
      rewrite Hstep in Hrun. simplify_eq. cbn [final polls fst snd].
      exists evs1. split; [done|]. split; [done|]. simpl. lia.
    + rewrite pollLoop_continue in Hrun; [|done|by rewrite Hstep].
      rewrite Hstep in Hrun. cbn [fst snd] in Hrun.
      apply fmap_Some in Hrun as (run' & Hrun' & ->). cbn [polled final polls].
      apply IH in Hrun' as (evs2 & Htrace2 & Hgets2 & Hlen2).
      exists (evs1 ++ evs2). rewrite Htrace2, Htrace, <-app_assoc.
      split; [done|]. split; [by apply Forall_app|].
      rewrite length_app. simpl. lia.
  - rewrite pollLoop_timeout in Hrun by done. simplify_eq. simpl.
    exists []. rewrite app_nil_r. split; [done|]. split; [done|].
    simpl. lia.
Qed.

(** X16: a device wait always ends, makes no call other than [Get], polls
    at most 1197 times and so makes at most 2394 [Get] calls. *)
Theorem wait_makes_boundedly_many_gets d target pending attribute w :
  ∃ run evs,
    WaitForDeviceAttribute client backoff d target pending attribute w
      = Some run ∧
    trace (final run).2 = trace w ++ evs ∧
    Forall (λ e, isGet e = true) evs ∧
    (length (polls run) ≤ 1197)%nat ∧
    (length (polls run) ≤ length evs ≤ 2 * length (polls run))%nat ∧
    (length evs ≤ 2394)%nat.
Proof.
  destruct (WaitForDeviceAttribute_total client backoff d target pending
              attribute w) as [run Hrun].
  pose proof Hrun as Hcalls.
  apply pollLoop_device_calls in Hcalls as (evs & Htrace & Hgets & Hlen).
  pose proof Hrun as Hpolls.
  apply pollLoop_polls_length in Hpolls; [|reflexivity].
  change (Z.max 0 (budget (deviceStateConf client target pending attribute)
                     (Delay (deviceStateConf client target pending attribute))))
    with 1197 in Hpolls.
  exists run, evs. split; [done|]. split; [done|]. split; [done|]. lia.
Qed.

End WaitMore.

(** ** Create, Delete and power-on as wholes *)

Lemma map_nth_seq (l : list string) :
  map (λ i, nth i l "") (seq 0 (length l)) = l.
Proof.
  induction l as [|x l IH]; [done|].
  simpl. f_equal. by rewrite <-seq_shift, map_map.
Qed.

Section OperationsMore.

Context {R : Type}.
Variable client : Client R.
Variable backoff : nat → Z.

(** X2: the creation request carries the configured tags, all of them and
    in their order (none when the list is empty), is always billed hourly,
    and has empty user data unless user_data is set. *)
Theorem createOptions_tags_and_billing d :
  req_Tags (createOptions d) = GetList "tags" d ∧
  req_BillingCycle (createOptions d) = "hourly" ∧
  (GetOk "user_data" d = None → req_UserData (createOptions d) = "").
Proof.
  split; [|split; [done|]].
  - unfold createOptions. simpl.
    destruct (GetList "tags" d) as [|tag tags] eqn:Htags; [done|].
    rewrite <-Htags.
    destruct (Nat.ltb_spec 0 (length (GetList "tags" d))) as [_|Hlen].
    + apply map_nth_seq.
    + rewrite Htags in Hlen. simpl in Hlen. lia.
  - unfold createOptions. simpl. by intros ->.
Qed.

(** The first tick of a wait, when its result stops the wait. *)
Lemma wait_stops_at_first_tick d target pending attribute w res :
  verdict (deviceStateConf client target pending attribute)
    (newDeviceStateRefreshFunc client attribute (d, w)).2 = Some res →
  WaitForDeviceAttribute client backoff d target pending attribute w =
    Some {| final := (newDeviceStateRefreshFunc client attribute (d, w)).1;
            result := res; polls := [10 * time.Second] |}.
Proof.
  intros Hres. unfold WaitForDeviceAttribute, WaitForState.
  by erewrite pollLoop_stop.
Qed.

(** The calls of a whole wait on a device. *)
Lemma wait_calls d target pending attribute w run :
  WaitForDeviceAttribute client backoff d target pending attribute w
    = Some run →
  ∃ gets,
    trace (final run).2 = trace w ++ gets ∧
    Forall (λ e, isGet e = true) gets.
Proof.
  intros Hrun.
  apply pollLoop_device_calls in Hrun as (evs & Htrace & Hgets & _).
  by exists evs.
Qed.

(** X3: Create begins with the one [Create] call it makes, carrying the
    creation options, and makes only [Get] calls after it.  If that call
    fails there are none: Create returns the error wrapped and leaves the
    resource data, the ID included, as it was. *)
Theorem Create_makes_one_create_call_then_gets d w :
  ∃ d' w' out gets,
    resourcePacketDeviceCreate client backoff d w = Some (d', w', out) ∧
    trace w' =
      trace w ++
      {| ev_call := CallCreate (createOptions d);
         ev_err := errOf (Create client (createOptions d) (remote w)).2 |}
      :: gets ∧
    Forall (λ e, isGet e = true) gets ∧
    match (Create client (createOptions d) (remote w)).2 with
    | inr err =>
        gets = [] ∧ d' = d ∧
        out = Returned (Some ("Error creating device: " +:+ err))
    | inl dev => gets ≠ []
    end.
Proof.
  unfold resourcePacketDeviceCreate, DevicesCreate.
  destruct (Create client (createOptions d) (remote w)) as [r [dev|err]].
  - simpl errOf.
    set (d0 := SetId (ID dev) d).
    set (w0 := logged (CallCreate (createOptions d)) None r w).
    destruct (WaitForDeviceAttribute_total client backoff d0 "active"
                ["queued"; "provisioning"] "state" w0) as [run Hrun].
    rewrite Hrun. simpl.
    pose proof Hrun as Hfirst.
    apply pollLoop_device_effect in Hfirst as (evs & Htrace' & Hfirst & _).
    destruct Hfirst as (e & rest & -> & _); [done|].
    apply wait_calls in Hrun as (gets & Htrace & Hgets).
    assert (gets = e :: rest) as ->
      by (apply (app_inv_head (trace w0)); congruence).
    destruct (final run) as [d1 w1]. simpl in *.
    destruct (result run) as [snapshot|err|].
    + pose proof (Read_effect client d1 w1) as Hread.
      destruct (resourcePacketDeviceRead client d1 w1) as [[d2 w2] res].
      destruct Hread as (e2 & Htrace2 & Hcall2 & _).
      exists d2, w2, (Returned res), ((e :: rest) ++ [e2]).
      split; [done|]. split; [|split; [|done]].
      * rewrite Htrace2, Htrace. by rewrite <-!app_assoc.
      * apply Forall_app. split; [done|].
        repeat constructor. unfold isGet. by rewrite Hcall2.
    + eexists d1, w1, _, (e :: rest). split; [done|].
      split; [by rewrite Htrace, <-app_assoc|]. done.
    + eexists d1, w1, _, (e :: rest). split; [done|].
      split; [by rewrite Htrace, <-app_assoc|]. done.
  - eexists d, _, _, []. simpl. done.
Qed.

(** X4: Create on a device that is active at the first poll.  The wait
    ends after one poll, ten seconds in, and Create returns no error after
    three [Get]s.  The resource data is filled from the first and the third
    device only: the snapshot of the second [Get] is dropped, and the state
    recorded is the third device's, whatever it is. *)
Theorem Create_of_device_active_at_first_poll
    d w r0 dev r1 dev1 r2 dev2 r3 dev3 :
  Create client (createOptions d) (remote w) = (r0, inl dev) →
  Get client (ID dev) r0 = (r1, inl dev1) →
  State dev1 = "active" →
  Get client (ID dev) r1 = (r2, inl dev2) →
  Get client (ID dev) r2 = (r3, inl dev3) →
  resourcePacketDeviceCreate client backoff d w =
    Some (populate dev3 (populate dev1 (SetId (ID dev) d)),
          {| remote := r3;
             trace := trace w ++
               [{| ev_call := CallCreate (createOptions d); ev_err := None |};
                {| ev_call := CallGet (ID dev); ev_err := None |};
                {| ev_call := CallGet (ID dev); ev_err := None |};
                {| ev_call := CallGet (ID dev); ev_err := None |}] |},
          Returned None).
Proof.
  intros Hcreate Hget1 Hactive Hget2 Hget3.
  unfold resourcePacketDeviceCreate, DevicesCreate. rewrite Hcreate.
  simpl errOf.
  set (d0 := SetId (ID dev) d).
  set (w0 := logged (CallCreate (createOptions d)) None r0 w).
  assert (newDeviceStateRefreshFunc client "state" (d0, w0) =
            (populate dev1 d0,
             logged (CallGet (ID dev)) None r2
               (logged (CallGet (ID dev)) None r1 w0),
             Observed dev2 "active")) as Htick.
  { erewrite (refresh_two_fetches client "state" d0 w0 r1 dev1 "active");
      [|done|].
    - change (Id d0) with (ID dev). by rewrite Hget2.
    - unfold GetOk. by rewrite populate_state, Hactive. }
  erewrite wait_stops_at_first_tick; [|by rewrite Htick].
  rewrite Htick. simpl.
  erewrite Read_found; [|by rewrite populate_id].
  rewrite populate_id. simpl. unfold logged. simpl.
  by rewrite <-!app_assoc.
Qed.

(** X13: a transport error is not retried.  If the first [Get] of Create's
    wait fails with an error other than not-found, the wait ends at once
    and Create returns that error wrapped twice, with the ID it was given
    still set and nothing else written. *)
Theorem Create_fails_on_first_get_error d w r0 dev r1 err :
  Create client (createOptions d) (remote w) = (r0, inl dev) →
  Get client (ID dev) r0 = (r1, inr err) →
  notFound err = false →
  resourcePacketDeviceCreate client backoff d w =
    Some (SetId (ID dev) d,
          {| remote := r1;
             trace := trace w ++
               [{| ev_call := CallCreate (createOptions d); ev_err := None |};
                {| ev_call := CallGet (ID dev); ev_err := Some err |}] |},
          Returned (Some ("Error waiting for device (" +:+ ID dev
                          +:+ ") to become ready: "
                          +:+ "Error retrieving device: " +:+ err))).
Proof.
  intros Hcreate Hget Hnf.
  unfold resourcePacketDeviceCreate, DevicesCreate. rewrite Hcreate.
  simpl errOf.
  set (d0 := SetId (ID dev) d).
  set (w0 := logged (CallCreate (createOptions d)) None r0 w).
  assert (newDeviceStateRefreshFunc client "state" (d0, w0) =
            (d0, logged (CallGet (ID dev)) (Some err) r1 w0,
             RefreshError ("Error retrieving device: " +:+ err))) as Htick.
  { unfold newDeviceStateRefreshFunc. by erewrite Read_failed. }
  erewrite wait_stops_at_first_tick; [|by rewrite Htick].
  rewrite Htick. simpl. unfold logged. simpl.
  by rewrite <-!app_assoc.
Qed.

End OperationsMore.

Section DeleteAndPowerOn.

Context {R : Type}.
Variable client : Client R.
Variable backoff : nat → Z.

(** X5: Delete makes only [Get] calls until its wait is over and then at
    most one [Delete] call, its last call.  It makes that call only with
    the state held locally being "active", and it returns no error only if
    it made the call and the call succeeded or reported not-found; any
    other error of the call comes back wrapped. *)
Theorem Delete_calls_delete_only_after_active d w :
  ∃ d' w' out gets,
    resourcePacketDeviceDelete client backoff d w = Some (d', w', out) ∧
    Forall (λ e, isGet e = true) gets ∧
    ((trace w' = trace w ++ gets ∧ out ≠ Returned None) ∨
     (∃ err,
        trace w' =
          trace w ++ gets ++
          [{| ev_call := CallDelete (Id d'); ev_err := err |}] ∧
        GetOk "state" d' = Some (VString "active") ∧
        out = Returned
                match err with
                | Some err =>
                    if notFound err then None
                    else Some ("Error deleting device: " +:+ err)
                | None => None
                end)).
Proof.
  unfold resourcePacketDeviceDelete.
  destruct (WaitForDeviceAttribute_total client backoff d "active"
              ["queued"; "provisioning"] "state" w) as [run Hrun].
  rewrite Hrun. simpl.
  destruct (wait_calls client backoff _ _ _ _ _ _ Hrun)
    as (gets & Htrace & Hgets).
  pose proof (λ snapshot,
                wait_success_leaves_target client backoff _ _ _ _ _ _
                  snapshot Hrun) as Hstate.
  destruct (final run) as [d1 w1]. simpl in *.
  destruct (result run) as [snapshot|err|].
  - unfold DevicesDelete.
    destruct (Delete client (Id d1) (remote w1)) as [r err].
    assert (trace (logged (CallDelete (Id d1)) err r w1) =
              trace w ++ gets ++
              [{| ev_call := CallDelete (Id d1); ev_err := err |}]) as Hlast.
    { simpl. by rewrite Htrace, <-app_assoc. }
    specialize (Hstate snapshot eq_refl).
    destruct err as [err|]; [destruct (strings.Contains err _) eqn:Hnf|].
    + eexists d1, _, _, gets. split; [done|]. split; [done|]. right.
      exists (Some err). unfold notFound. by rewrite Hnf.
    + eexists d1, _, _, gets. split; [done|]. split; [done|]. right.
      exists (Some err). unfold notFound. by rewrite Hnf.
    + eexists d1, _, _, gets. split; [done|]. split; [done|]. right.
      by exists None.
  - eexists d1, w1, _, gets. split; [done|]. split; [done|]. by left.
  - eexists d1, w1, _, gets. split; [done|]. split; [done|]. by left.
Qed.

(** X6: Delete of a device that is active at the first poll.  The wait
    ends after one poll and two [Get]s, the [Delete] call is made for the
    tracked ID, and Delete returns no error if the call succeeds or reports
    not-found and its error wrapped otherwise. *)
Theorem Delete_of_device_active_at_first_poll
    d w r1 dev1 r2 dev2 r3 err :
  Get client (Id d) (remote w) = (r1, inl dev1) →
  State dev1 = "active" →
  Get client (Id d) r1 = (r2, inl dev2) →
  Delete client (Id d) r2 = (r3, err) →
  resourcePacketDeviceDelete client backoff d w =
    Some (populate dev1 d,
          {| remote := r3;
             trace := trace w ++
               [{| ev_call := CallGet (Id d); ev_err := None |};
                {| ev_call := CallGet (Id d); ev_err := None |};
                {| ev_call := CallDelete (Id d); ev_err := err |}] |},
          Returned
            match err with
            | Some err =>
                if notFound err then None
                else Some ("Error deleting device: " +:+ err)
            | None => None
            end).
Proof.
  intros Hget1 Hactive Hget2 Hdelete.
  unfold resourcePacketDeviceDelete.
  assert (newDeviceStateRefreshFunc client "state" (d, w) =
            (populate dev1 d,
             logged (CallGet (Id d)) None r2
               (logged (CallGet (Id d)) None r1 w),
             Observed dev2 "active")) as Htick.
  { erewrite (refresh_two_fetches client "state" d w r1 dev1 "active");
      [|done|].
    - by rewrite Hget2.
    - unfold GetOk. by rewrite populate_state, Hactive. }
  erewrite wait_stops_at_first_tick; [|by rewrite Htick].
  rewrite Htick. simpl. unfold DevicesDelete. rewrite populate_id. simpl.
  rewrite Hdelete. unfold logged, notFound. simpl. rewrite <-!app_assoc.
  simpl. destruct err as [err|]; [|done].
  by destruct (strings.Contains err "404 Not Found").
Qed.

(** X14: powerOnAndWait begins with the one [PowerOn] call it makes and
    makes only [Get] calls after it.  If that call fails there are none and
    its error comes back as it is, with the resource data untouched.  It
    returns no error only if the call succeeded and the state held locally
    at the end is "active". *)
Theorem powerOnAndWait_returns_nil_only_when_active d w :
  ∃ d' w' out gets,
    powerOnAndWait client backoff d w = Some (d', w', out) ∧
    trace w' =
      trace w ++
      {| ev_call := CallPowerOn (Id d);
         ev_err := (PowerOn client (Id d) (remote w)).2 |} :: gets ∧
    Forall (λ e, isGet e = true) gets ∧
    match (PowerOn client (Id d) (remote w)).2 with
    | Some err => gets = [] ∧ d' = d ∧ out = Returned (Some err)
    | None =>
        out = Returned None → GetOk "state" d' = Some (VString "active")
    end.
Proof.
  unfold powerOnAndWait, DevicesPowerOn.
  destruct (PowerOn client (Id d) (remote w)) as [r [err|]].
  - eexists d, _, _, []. simpl. done.
  - set (w0 := logged (CallPowerOn (Id d)) None r w).
    destruct (WaitForDeviceAttribute_total client backoff d "active"
                ["off"] "state" w0) as [run Hrun].
    rewrite Hrun. simpl.
    destruct (wait_calls client backoff _ _ _ _ _ _ Hrun)
      as (gets & Htrace & Hgets).
    pose proof (λ snapshot,
                  wait_success_leaves_target client backoff _ _ _ _ _ _
                    snapshot Hrun) as Hstate.
    destruct (final run) as [d1 w1]. simpl in *.
    assert (trace w1 = trace w ++
              {| ev_call := CallPowerOn (Id d); ev_err := None |} :: gets)
      as Htrace1 by (by rewrite Htrace, <-app_assoc).
    destruct (result run) as [snapshot|err|].
    + eexists d1, w1, _, gets. repeat split; eauto.
    + eexists d1, w1, _, gets. repeat split; eauto. done.
    + eexists d1, w1, _, gets. repeat split; eauto. done.
Qed.

(** X11: on resource data that fits the schema, the type assertion
    [attr.(string)] of the refresh function cannot fail in a wait on an
    attribute that the schema declares as a string, as it does state, the
    attribute that Create, Delete and powerOnAndWait await: such a wait does
    not end in the failed assertion, and the data it leaves fits the schema
    again.  Panics of other origin, such as Read following a nil [dev.OS],
    are not modelled and not spoken of. *)
Theorem wait_type_assertion_never_fails d target pending attribute w run :
  wellTyped d →
  Type_ <$> resourcePacketDevice !! attribute = Some TypeString →
  WaitForDeviceAttribute client backoff d target pending attribute w
    = Some run →
  result run ≠ WaitPanic ∧ wellTyped (final run).1.
Proof.
  intros Hd Ht Hrun.
  eapply (wait_typed client backoff _ _ _ _ _ _ TypeString)
    in Hrun as (Hfinal & Hpanic & _); [|done..].
  split; [by apply Hpanic | done].
Qed.

End DeleteAndPowerOn.

(** ** The not-found test *)

Lemma prefix_iff p : ∀ s,
  String.prefix p s = true ↔ ∃ b, s = p +:+ b.
Proof.
  induction p as [|c p IH]; intros s.
  - split; [by exists s | by destruct s].
  - destruct s as [|c' s].
    + split; [done | intros [b Hb]; discriminate Hb].
    + change (String.prefix (String c p) (String c' s))
        with (if Ascii.ascii_dec c c' then String.prefix p s else false).
      change (∃ b, String c' s = String c p +:+ b)
        with (∃ b, String c' s = String c (p +:+ b)).
      destruct (Ascii.ascii_dec c c') as [<-|Hne].
      * rewrite IH. split; intros [b Hb]; exists b; congruence.
      * split; [done | intros [b Hb]; congruence].
Qed.

Lemma Contains_iff substr s :
  strings.Contains s substr = true ↔ ∃ a b, s = a +:+ substr +:+ b.
Proof.
  split.
  - induction s as [|c s IH]; cbn [strings.Contains].
    + rewrite orb_false_r, prefix_iff. intros [b Hb]. by exists "", b.
    + rewrite orb_true_iff, prefix_iff. intros [[b Hb]|Hin].
      * by exists "", b.
      * destruct (IH Hin) as (a & b & ->). by exists (String c a), b.
  - intros (a & b & ->). induction a as [|c a IH].
    + change ("" +:+ substr +:+ b) with (substr +:+ b).
      assert (String.prefix substr (substr +:+ b) = true) as Hprefix
        by (apply prefix_iff; eauto).
      destruct (substr +:+ b); cbn [strings.Contains]; by rewrite Hprefix.
    + change (String c a +:+ substr +:+ b)
        with (String c (a +:+ substr +:+ b)).
      cbn [strings.Contains]. rewrite IH. apply orb_true_r.
Qed.

(** X15: Read and Delete take an error for "the device is gone" exactly
    when its text has "404 Not Found" somewhere in it, so also when the
    remote error arrives wrapped in other text. *)
Theorem notFound_iff_text_mentions_404 err :
  notFound err = true ↔ ∃ a b, err = a +:+ "404 Not Found" +:+ b.
Proof. apply Contains_iff. Qed.

(** ** Concrete runs of the further properties *)

Lemma Read_found_copies_and_frames_witness :
  let dev := device "active" [address 4 "147.1.2.3" true] in
  let d := tracked "dev-1" "queued" in
  Get scriptedClient "dev-1" (script [inl dev]) = (script [], inl dev) ∧
  let d' := (resourcePacketDeviceRead scriptedClient d
               (start (script [inl dev]))).1.1 in
  Id d' = "dev-1" ∧
  rd_attrs d' !! "state" = Some (VString "active") ∧
  rd_attrs d' !! "locked" = Some (VBool false) ∧
  rd_attrs d' !! "user_data" = rd_attrs d !! "user_data".
Proof.
  intros dev d. split; [reflexivity|].
  destruct (Read_found_copies_and_frames scriptedClient d
              (start (script [inl dev])) (script []) dev eq_refl)
    as (Hid & _ & _ & _ & _ & _ & Hstate & Hlocked & Hframe).
  split; [exact Hid|]. split; [exact Hstate|]. split; [exact Hlocked|].
  apply Hframe. rewrite !not_elem_of_cons.
  repeat split; try discriminate. apply not_elem_of_nil.
Defined.

Lemma Read_found_sets_connection_info_witness :
  let dev := device "active" [address 4 "10.0.0.5" false;
                              address 6 "2604::1" true] in
  Get scriptedClient "dev-1" (script [inl dev]) = (script [], inl dev) ∧
  rd_conn (resourcePacketDeviceRead scriptedClient (noData "dev-1")
             (start (script [inl dev]))).1.1 =
    <["type" := "ssh"]> (<["host" := ""]> ∅).
Proof.
  intros dev. split; [reflexivity|].
  exact (Read_found_sets_connection_info scriptedClient (noData "dev-1")
           (start (script [inl dev])) (script []) dev eq_refl).
Defined.

Lemma Read_twice_same_device_witness :
  let dev := device "active" [address 4 "147.1.2.3" true] in
  let s := script [inl dev; inl dev] in
  Get scriptedClient "dev-1" s = (script [inl dev], inl dev) ∧
  Get scriptedClient "dev-1" (script [inl dev]) = (script [], inl dev) ∧
  let '(d1, w1, _) :=
    resourcePacketDeviceRead scriptedClient (noData "dev-1") (start s) in
  resourcePacketDeviceRead scriptedClient d1 w1 =
    (d1, logged (CallGet "dev-1") None (script []) w1, None).
Proof.
  intros dev s. split; [reflexivity|]. split; [reflexivity|].
  exact (Read_twice_same_device scriptedClient (noData "dev-1") (start s)
           (script [inl dev]) (script []) dev eq_refl eq_refl).
Defined.

Lemma Read_keeps_schema_typing_witness :
  wellTyped (noData "dev-1") ∧
  wellTyped (resourcePacketDeviceRead scriptedClient (noData "dev-1")
               (start (script [inl (device "active" [])]))).1.1.
Proof.
  split; [apply map_Forall_empty|].
  apply (Read_keeps_schema_typing scriptedClient), map_Forall_empty.
Defined.

Lemma createOptions_tags_and_billing_witness :
  let d := Set_ "tags" (VList ["web"; "blue"]) (noData "") in
  GetOk "user_data" d = None ∧
  req_Tags (createOptions d) = ["web"; "blue"] ∧
  req_UserData (createOptions d) = "".
Proof.
  intros d. split; [reflexivity|].
  destruct (createOptions_tags_and_billing d) as (Htags & _ & Hdata).
  split; [exact Htags | exact (Hdata eq_refl)].
Defined.

Lemma wait_success_leaves_target_witness :
  let s := script [inl (device "active" []); inl (device "active" [])] in
  ∃ run,
    WaitForDeviceAttribute scriptedClient steady (noData "dev-1") "active"
      ["queued"; "provisioning"] "state" (start s) = Some run ∧
    result run = WaitOk (device "active" []) ∧
    GetOk "state" (final run).1 = Some (VString "active").
Proof.
  intros s. eexists. split; [vm_compute; reflexivity|].
  split; [reflexivity|].
  apply (wait_success_leaves_target scriptedClient steady (noData "dev-1")
           "active" ["queued"; "provisioning"] "state" (start s) _
           (device "active" [])).
  - vm_compute. reflexivity.
  - reflexivity.
Defined.

Lemma wait_on_non_string_attribute_never_succeeds_witness :
  let s := script [inl lockedDevice; inl lockedDevice] in
  wellTyped (noData "dev-1") ∧
  Type_ <$> resourcePacketDevice !! "locked" = Some TypeBool ∧
  ∃ run,
    WaitForDeviceAttribute scriptedClient steady (noData "dev-1") "true"
      [] "locked" (start s) = Some run ∧
    result run = WaitPanic ∧
    ∀ snapshot, result run ≠ WaitOk snapshot.
Proof.
  intros s. split; [apply map_Forall_empty|]. split; [reflexivity|].
  eexists. split; [vm_compute; reflexivity|]. split; [reflexivity|].
  apply (wait_on_non_string_attribute_never_succeeds scriptedClient steady
           (noData "dev-1") "true" [] "locked" (start s) _ TypeBool).
  - apply map_Forall_empty.
  - reflexivity.
  - discriminate.
  - vm_compute. reflexivity.
Defined.

Lemma Create_of_device_active_at_first_poll_witness :
  let first := device "active" [address 4 "147.1.2.3" true] in
  let second := device "active" [] in
  let third := device "rebooting" [address 4 "147.1.2.3" true] in
  let s := afterCreate (device "queued" [])
             [inl first; inl second; inl third] in
  (λ '(d', w', out),
     (Id d', rd_attrs d' !! "state", rd_attrs d' !! "ipv4_address",
      length (trace w'), out)) <$>
    resourcePacketDeviceCreate scriptedClient steady (noData "") (start s)
  = Some ("dev-1", Some (VString "rebooting"), Some (VString "147.1.2.3"),
          4%nat, Returned None).
Proof.
  intros first second third s.
  rewrite (Create_of_device_active_at_first_poll scriptedClient steady
             (noData "") (start s) s (device "queued" [])
             (afterCreate (device "queued" []) [inl second; inl third]) first
             (afterCreate (device "queued" []) [inl third]) second
             (afterCreate (device "queued" []) []) third
             eq_refl eq_refl eq_refl eq_refl eq_refl).
  reflexivity.
Defined.

Lemma Create_fails_on_first_get_error_witness :
  let s := afterCreate (device "queued" []) [inr "502 Bad Gateway"] in
  resourcePacketDeviceCreate scriptedClient steady (noData "") (start s) =
    Some (SetId "dev-1" (noData ""),
          {| remote := afterCreate (device "queued" []) [];
             trace :=
               [{| ev_call := CallCreate (createOptions (noData ""));
                   ev_err := None |};
                {| ev_call := CallGet "dev-1";
                   ev_err := Some "502 Bad Gateway" |}] |},
          Returned (Some "Error waiting for device (dev-1) to become ready: Error retrieving device: 502 Bad Gateway")).
Proof.
  intros s.
  exact (Create_fails_on_first_get_error scriptedClient steady (noData "")
           (start s) s (device "queued" [])
           (afterCreate (device "queued" []) []) "502 Bad Gateway"
           eq_refl eq_refl eq_refl).
Defined.

Lemma Delete_of_device_active_at_first_poll_witness :
  let s := {| gets := [inl (device "active" []); inl (device "active" [])];
              created := inr "unavailable";
              deleted := Some "500 Internal Server Error";
              locked := None; unlocked := None; powered := None |} in
  (λ '(d', w', out), (Id d', length (trace w'), out)) <$>
    resourcePacketDeviceDelete scriptedClient steady (tracked "dev-1" "active")
      (start s)
  = Some ("dev-1", 3%nat,
          Returned (Some "Error deleting device: 500 Internal Server Error")).
Proof.
  intros s.
  rewrite (Delete_of_device_active_at_first_poll scriptedClient steady
             (tracked "dev-1" "active") (start s)
             {| gets := [inl (device "active" [])];
                created := inr "unavailable";
                deleted := Some "500 Internal Server Error";
                locked := None; unlocked := None; powered := None |}
             (device "active" [])
             {| gets := []; created := inr "unavailable";
                deleted := Some "500 Internal Server Error";
                locked := None; unlocked := None; powered := None |}
             (device "active" []) _ (Some "500 Internal Server Error")
             eq_refl eq_refl eq_refl eq_refl).
  reflexivity.
Defined.

Lemma wait_type_assertion_never_fails_witness :
  let s := script [inl lockedDevice; inl lockedDevice] in
  wellTyped (tracked "dev-1" "queued") ∧
  Type_ <$> resourcePacketDevice !! "state" = Some TypeString ∧
  ∃ run,
    WaitForDeviceAttribute scriptedClient steady (tracked "dev-1" "queued")
      "active" ["queued"; "provisioning"] "state" (start s) = Some run ∧
    result run = WaitOk lockedDevice ∧
    result run ≠ WaitPanic ∧ wellTyped (final run).1.
Proof.
  intros s.
  assert (wellTyped (tracked "dev-1" "queued")) as Htyped.
  { apply map_Forall_insert_2; [reflexivity | apply map_Forall_empty]. }
  split; [exact Htyped|]. split; [reflexivity|].
  eexists. split; [vm_compute; reflexivity|]. split; [reflexivity|].
  apply (wait_type_assertion_never_fails scriptedClient steady
           (tracked "dev-1" "queued") "active" ["queued"; "provisioning"]
           "state" (start s)).
  - exact Htyped.
  - reflexivity.
  - vm_compute. reflexivity.
Defined.
